(** * Incident API: the Lambda handlers and their shared helpers

    A shallow embedding of the incident service (create, get, list,
    update-status and health handlers with the helpers of [shared/]),
    followed by the properties of its specification.

    Conventions of the embedding.
    - A Python dictionary whose keys are strings is a [gmap string _];
      JSON documents are values of [json]; Python [None] and JSON [null]
      are both [JNull].
    - A handler is a computation over a [World]: the process environment,
      the contents of the incidents table and the log of every request made
      to a collaborator (table or notification topic).  An exception leaves
      the world as it was when it was raised.
    - [json.loads], [base64.b64decode], [uuid.uuid4], the clock and the two
      AWS clients are not code of the service.  The first two are the fields
      of the class [PyLib]; the rest is the [Env] of one invocation.
    - The table is the store the specification assumes: conditional writes
      are atomic, a read by key sees the last write, a scan pages through
      every item, and an item is kept and given back as the JSON it was
      written as.  A request to it may still be answered with a service
      error, which the [Env] decides; so may a publish to the topic.
    - The body of a response is the document the handler passes to
      [json.dumps], not its text. *)

From stdpp Require Import gmap strings list fin_maps.
From Stdlib Require Import ZArith NArith Ascii.

Set Warnings "-register-all".

Open Scope string_scope.

(* ================================================================== *)
(** * JSON documents and Python values *)
(* ================================================================== *)

Inductive json : Type :=
  | JNull
  | JBool (b : bool)
  | JInt (z : Z)
  | JFloat (literal : string)
  | JString (s : string)
  | JArray (l : list json)
  | JObject (o : gmap string json).

(** [Dict[str, Any]] *)
Abbreviation dict := (gmap string json).

Inductive exn : Type :=
  | ClientError (code text : string)
  | ValueError (text : string)
  | TypeError (text : string)
  | AttributeError (text : string)
  | KeyError (text : string)
  | RuntimeError (text : string).

(** [str(exc)] *)
Definition str_exc (e : exn) : string :=
  match e with
  | ClientError _ text => text
  | ValueError text => text
  | TypeError text => text
  | AttributeError text => text
  | KeyError text => text
  | RuntimeError text => text
  end.

(** The outcome of running Python code: a value, an exception that reached
    the caller, or no answer within the step budget. *)
Inductive result (A : Type) : Type :=
  | Ok (a : A)
  | Raised (e : exn)
  | TimedOut.
Arguments Ok {A} a.
Arguments Raised {A} e.
Arguments TimedOut {A}.

(** Pure code that may raise. *)
Definition pure_bind {A B} (r : result A) (k : A → result B) : result B :=
  match r with
  | Ok a => k a
  | Raised e => Raised e
  | TimedOut => TimedOut
  end.

Notation "x <~ r ;; k" := (pure_bind r (fun x => k))
  (at level 100, r at next level, right associativity).

(* ------------------------------------------------------------------ *)
(** ** Strings *)

(** [str.isspace] on one character, for the code points below 256. *)
Definition isspace (c : ascii) : bool :=
  let n := nat_of_ascii c in
  (((9 <=? n) && (n <=? 13)) || ((28 <=? n) && (n <=? 32))
   || (n =? 133) || (n =? 160))%nat.

Fixpoint lstrip (s : string) : string :=
  match s with
  | String c s' => if isspace c then lstrip s' else s
  | EmptyString => EmptyString
  end.

(** Drop the trailing white space: a character is kept when it is not a
    space or when something is kept after it. *)
Fixpoint rstrip (s : string) : string :=
  match s with
  | String c s' =>
      match rstrip s' with
      | EmptyString => if isspace c then EmptyString else String c EmptyString
      | rest => String c rest
      end
  | EmptyString => EmptyString
  end.

(** [s.strip()] *)
Definition strip (s : string) : string := rstrip (lstrip s).

(** [sub in s] for two strings *)
Fixpoint str_contains (sub s : string) : bool :=
  String.prefix sub s ||
  match s with
  | String _ s' => str_contains sub s'
  | EmptyString => false
  end.

(** [sep.join(l)] *)
Fixpoint join (sep : string) (l : list string) : string :=
  match l with
  | [] => ""
  | [x] => x
  | x :: rest => x +:+ sep +:+ join sep rest
  end.

(** Truthiness of an optional string: [None] and the empty string are false. *)
Definition str_truthy (s : option string) : bool :=
  match s with
  | Some (String _ _) => true
  | _ => false
  end.

(* ------------------------------------------------------------------ *)
(** ** The Python operations the handlers apply to a parsed payload *)

Definition type_name (v : json) : string :=
  match v with
  | JNull => "NoneType"
  | JBool _ => "bool"
  | JInt _ => "int"
  | JFloat _ => "float"
  | JString _ => "str"
  | JArray _ => "list"
  | JObject _ => "dict"
  end.

Definition is_str_eq (x : string) (v : json) : bool :=
  match v with
  | JString s => String.eqb x s
  | _ => false
  end.

(** [x in container], [x] a string *)
Definition py_in (x : string) (container : json) : result bool :=
  match container with
  | JObject o => Ok (bool_decide (is_Some (o !! x)))
  | JArray l => Ok (existsb (is_str_eq x) l)
  | JString s => Ok (str_contains x s)
  | v => Raised (TypeError ("argument of type '" +:+ type_name v +:+ "' is not iterable"))
  end.

(** [container.get(key)] *)
Definition py_get (container : json) (key : string) : result json :=
  match container with
  | JObject o => Ok (default JNull (o !! key))
  | v => Raised (AttributeError ("'" +:+ type_name v +:+ "' object has no attribute 'get'"))
  end.

(** [container[key]], [key] a string *)
Definition py_getitem (container : json) (key : string) : result json :=
  match container with
  | JObject o =>
      match o !! key with
      | Some v => Ok v
      | None => Raised (KeyError ("'" +:+ key +:+ "'"))
      end
  | JArray _ => Raised (TypeError "list indices must be integers or slices, not str")
  | JString _ => Raised (TypeError "string indices must be integers, not 'str'")
  | v => Raised (TypeError ("'" +:+ type_name v +:+ "' object is not subscriptable"))
  end.

(** [v.strip()] *)
Definition py_strip (v : json) : result string :=
  match v with
  | JString s => Ok (strip s)
  | v => Raised (AttributeError ("'" +:+ type_name v +:+ "' object has no attribute 'strip'"))
  end.

Definition isinstance_str (v : json) : bool :=
  match v with JString _ => true | _ => false end.

Definition isinstance_list (v : json) : bool :=
  match v with JArray _ => true | _ => false end.

(** [v in allowed], [allowed] a set of strings: the value is hashed first. *)
Definition py_in_set (v : json) (allowed : list string) : result bool :=
  match v with
  | JString s => Ok (bool_decide (s ∈ allowed))
  | JArray _ | JObject _ => Raised (TypeError ("unhashable type: '" +:+ type_name v +:+ "'"))
  | _ => Ok false
  end.

(* ================================================================== *)
(** * The world outside the handlers *)
(* ================================================================== *)

(** Requests made to the collaborators, in the order they were made. *)
Inductive request : Type :=
  | PutItem (table_name : string) (item : dict)
  | GetItem (table_name : string) (key : string)
  | Scan (table_name : string) (exclusive_start_key : option nat)
  | UpdateItem (table_name : string) (key : string) (status : json) (updated_at : string)
  | Publish (topic_arn : string) (message : dict).

Record World : Type := mkWorld {
  environ : gmap string string;     (* os.environ *)
  items : gmap string dict;         (* the incidents table, by incident_id *)
  requests : list request;          (* collaborator requests made so far *)
}.

(** What one invocation gets from outside. *)
Record Env : Type := mkEnv {
  uuid4 : N;                        (* uuid.uuid4().int *)
  utcnow : string;                  (* datetime.now(timezone.utc).isoformat() *)
  table_fault : nat → option (string * string);
      (* the service error (code, text), if any, that answers the table
         request made when [n] requests are already in the log *)
  scan_limit : nat → nat;
      (* how many items the service evaluates for a scan page starting at
         a given position *)
  publish_fault : option exn;       (* the exception raised by the topic client *)
}.

(** Library functions of the Python runtime. *)
Class PyLib : Type := {
  json_loads : string → option json;          (* None: JSONDecodeError *)
  b64decode_utf8 : string → string + string;  (* inl: text of the ValueError raised *)
}.

(** Stateful code: the world is threaded, also through a raise. *)
Definition M (A : Type) : Type := World → World * result A.

Definition ret {A} (a : A) : M A := fun w => (w, Ok a).
Definition raise {A} (e : exn) : M A := fun w => (w, Raised e).
Definition lift {A} (r : result A) : M A := fun w => (w, r).

Definition bind {A B} (m : M A) (k : A → M B) : M B :=
  fun w =>
    match m w with
    | (w', Ok a) => k a w'
    | (w', Raised e) => (w', Raised e)
    | (w', TimedOut) => (w', TimedOut)
    end.

Notation "x <- m ;; k" := (bind m (fun x => k))
  (at level 100, m at next level, right associativity).

(** [try: m  except <handles> as exc: handler exc] *)
Definition try_except {A} (m : M A) (handles : exn → bool) (handler : exn → M A) : M A :=
  fun w =>
    match m w with
    | (w', Raised e) => if handles e then handler e w' else (w', Raised e)
    | r => r
    end.

Definition is_ClientError (e : exn) : bool :=
  match e with ClientError _ _ => true | _ => false end.

Definition is_ValueError (e : exn) : bool :=
  match e with ValueError _ => true | _ => false end.

(** [except Exception] *)
Definition is_Exception (e : exn) : bool := true.

(** [str(uuid)]: 32 lower-case hexadecimal digits in groups 8-4-4-4-12. *)
Definition hex_digit (n : N) : ascii :=
  match n with
  | 0%N => "0" | 1%N => "1" | 2%N => "2" | 3%N => "3" | 4%N => "4"
  | 5%N => "5" | 6%N => "6" | 7%N => "7" | 8%N => "8" | 9%N => "9"
  | 10%N => "a" | 11%N => "b" | 12%N => "c" | 13%N => "d" | 14%N => "e"
  | _ => "f"
  end%char.

Fixpoint hex_digits (n : nat) (u : N) : string :=
  match n with
  | O => ""
  | S n' => hex_digits n' (u / 16)%N +:+ String (hex_digit (u mod 16)%N) ""
  end.

Definition str_uuid (u : N) : string :=
  let h := hex_digits 32 u in
  String.substring 0 8 h +:+ "-" +:+ String.substring 8 4 h +:+ "-"
  +:+ String.substring 12 4 h +:+ "-" +:+ String.substring 16 4 h +:+ "-"
  +:+ String.substring 20 12 h.

(* ================================================================== *)
(** * Events and responses of the REST proxy integration *)
(* ================================================================== *)

Module Event.
Record t : Type := mk {
  httpMethod : option string;
  pathParameters : option (gmap string string);
  body : option string;
  isBase64Encoded : bool;
}.
(** The dictionary without entries. *)
Definition empty : t := mk None None None false.
End Event.

(** [event or {}]; the handlers may be given [None] for the event. *)
Definition event_or_empty (event : option Event.t) : Event.t :=
  default Event.empty event.

(** The [body] holds the document that [json.dumps] serialises. *)
Record Response : Type := mkResponse {
  statusCode : Z;
  headers : gmap string string;
  body : dict;
  isBase64Encoded : bool;
}.

(* ================================================================== *)
(** * The collaborators: the table and the topic *)
(* ================================================================== *)

(** The world after one more collaborator request. *)
Definition logged (w : World) (r : request) : World :=
  mkWorld (environ w) (items w) (requests w ++ [r])%list.

(** The world with new table contents. *)
Definition with_items (w : World) (contents : gmap string dict) : World :=
  mkWorld (environ w) contents (requests w).

(** The table resource of the AWS client library, for a table whose
    primary key is [incident_id]: conditional writes are atomic, a read
    by key sees the last write, a scan pages through every item. *)
Module Table.

Definition conditional_check_failed (operation : string) : exn :=
  ClientError "ConditionalCheckFailedException"
    ("An error occurred (ConditionalCheckFailedException) when calling the "
     +:+ operation +:+ " operation: The conditional request failed").

Definition validation_exception (operation : string) : exn :=
  ClientError "ValidationException"
    ("An error occurred (ValidationException) when calling the "
     +:+ operation +:+ " operation: One of the required keys was not given a value").

(** Every request is logged; the service may answer it with an error. *)
Definition send (env : Env) (r : request) : M unit :=
  fun w =>
    match table_fault env (length (requests w)) with
    | Some (code, text) => (logged w r, Raised (ClientError code text))
    | None => (logged w r, Ok tt)
    end.

(** [put_item(Item=item, ConditionExpression="attribute_not_exists(incident_id)")] *)
Definition put_item (env : Env) (table_name : string) (item : dict) : M unit :=
  _ <- send env (PutItem table_name item) ;;
  fun w =>
    match item !! "incident_id" with
    | Some (JString key) =>
        match items w !! key with
        | Some _ => (w, Raised (conditional_check_failed "PutItem"))
        | None => (with_items w (<[key := item]> (items w)), Ok tt)
        end
    | _ => (w, Raised (validation_exception "PutItem"))
    end.

(** [get_item(Key={"incident_id": key})]: the entry ["Item"] of the
    answer, absent when there is no such item. *)
Definition get_item (env : Env) (table_name : string) (key : string) : M (option dict) :=
  _ <- send env (GetItem table_name key) ;;
  fun w => (w, Ok (items w !! key)).

(** One page of a scan.  The key of the last evaluated item is opaque to
    the caller, who hands it back to get the next page: here it is the
    position of the first item not yet evaluated.  It is given only when
    items remain, so when it is given it is truthy. *)
Record ScanResponse : Type := mkScan {
  Items : list dict;
  LastEvaluatedKey : option nat;
}.

(** The order in which the table is scanned. *)
Definition scan_order (w : World) : list dict := (map_to_list (items w)).*2.

Definition page (env : Env) (w : World) (start : nat) : ScanResponse :=
  let got := take (scan_limit env start) (drop start (scan_order w)) in
  let next := (start + length got)%nat in
  mkScan got (if (next <? length (scan_order w))%nat then Some next else None).

(** [scan], called with or without [ExclusiveStartKey] *)
Definition scan (env : Env) (table_name : string) (exclusive_start_key : option nat)
  : M ScanResponse :=
  _ <- send env (Scan table_name exclusive_start_key) ;;
  fun w => (w, Ok (page env w (default 0%nat exclusive_start_key))).

(** [update_item(Key={"incident_id": key},
                 UpdateExpression="SET #s = :s, updated_at = :u",
                 ConditionExpression="attribute_exists(incident_id)",
                 ReturnValues="ALL_NEW")]: the entry ["Attributes"]. *)
Definition update_item (env : Env) (table_name : string) (key : string) (status : json)
    (updated_at : string) : M dict :=
  _ <- send env (UpdateItem table_name key status updated_at) ;;
  fun w =>
    match items w !! key with
    | None => (w, Raised (conditional_check_failed "UpdateItem"))
    | Some item =>
        let item' := <["updated_at" := JString updated_at]> (<["status" := status]> item) in
        (with_items w (<[key := item']> (items w)), Ok item')
    end.

End Table.

(** The notification topic: best-effort delivery of one message. *)
Module Topic.

Definition publish (env : Env) (topic_arn : string) (message : dict) : M unit :=
  fun w =>
    match publish_fault env with
    | Some e => (logged w (Publish topic_arn message), Raised e)
    | None => (logged w (Publish topic_arn message), Ok tt)
    end.

End Topic.

(* ================================================================== *)
(** * shared/utils.py *)
(* ================================================================== *)

Module utils.

Definition build_response (status_code : Z) (body : option dict) : Response :=
  let body := match body with None => ∅ | Some b => b end in
  {| statusCode := status_code;
     headers := {[ "Content-Type" := "application/json";
                   "Access-Control-Allow-Origin" := "*";
                   "Access-Control-Allow-Methods" := "OPTIONS,GET,POST,PATCH,PUT,DELETE";
                   "Access-Control-Allow-Headers" := "Content-Type,Authorization" ]};
     body := body;
     isBase64Encoded := false |}.

Definition parse_json_body `{PyLib} (event : option Event.t) : result json :=
  match event with
  | None => Raised (AttributeError "'NoneType' object has no attribute 'get'")
  | Some ev =>
      match Event.body ev with
      | None => Raised (ValueError "Request body is required")
      | Some raw_body =>
          raw_body <~ (if Event.isBase64Encoded ev
                       then match b64decode_utf8 raw_body with
                            | inl text => Raised (ValueError text)
                            | inr decoded => Ok decoded
                            end
                       else Ok raw_body) ;;
          match json_loads raw_body with
          | Some payload => Ok payload
          | None => Raised (ValueError "Request body must be valid JSON")
          end
      end
  end.

Definition is_options_request (event : option Event.t) : bool :=
  bool_decide (Event.httpMethod (event_or_empty event) = Some "OPTIONS").

End utils.

(** [(event or {}).get("httpMethod") in methods] *)
Definition method_in (event : option Event.t) (methods : list string) : bool :=
  match Event.httpMethod (event_or_empty event) with
  | Some m => bool_decide (m ∈ methods)
  | None => false
  end.

(** [try: x = m  except <handles> as exc: return on_exc exc]: the
    handler returns early with [inl], or goes on with [inr x]. *)
Definition try_or_return {A} (m : M A) (handles : exn → bool) (on_exc : exn → Response)
  : M (Response + A) :=
  try_except (x <- m ;; ret (inr x)) handles (fun exc => ret (inl (on_exc exc))).

(* ================================================================== *)
(** * shared/dynamodb.py *)
(* ================================================================== *)

Module dynamodb.

Definition _get_env_var (name : string) : M string :=
  fun w =>
    match environ w !! name with
    | Some (String c s) => (w, Ok (String c s))
    | _ => (w, Raised (RuntimeError ("Missing required environment variable: " +:+ name)))
    end.

(** The table handle is its name. *)
Definition get_incidents_table : M string := _get_env_var "INCIDENTS_TABLE_NAME".

Definition put_incident_item (env : Env) (item : dict) : M unit :=
  table <- get_incidents_table ;;
  Table.put_item env table item.

Definition get_incident_item (env : Env) (incident_id : string) : M (option dict) :=
  table <- get_incidents_table ;;
  Table.get_item env table incident_id.

(** The [while True] loop, one table request per round. *)
Fixpoint scan_loop (fuel : nat) (env : Env) (table : string)
    (scan_kwargs : option nat) (items : list dict) : M (list dict) :=
  match fuel with
  | O => fun w => (w, TimedOut)
  | S fuel' =>
      response <- Table.scan env table scan_kwargs ;;
      let items := (items ++ Table.Items response)%list in
      match Table.LastEvaluatedKey response with
      | None => ret items
      | Some last_key => scan_loop fuel' env table (Some last_key) items
      end
  end.

Definition scan_incidents (fuel : nat) (env : Env) : M (list dict) :=
  table <- get_incidents_table ;;
  scan_loop fuel env table None [].

Definition update_incident_status (env : Env) (incident_id : string) (status : json)
    (updated_at : string) : M dict :=
  table <- get_incidents_table ;;
  Table.update_item env table incident_id status updated_at.

End dynamodb.

(* ================================================================== *)
(** * shared/sns.py *)
(* ================================================================== *)

Module sns.

Definition _get_env_var (name : string) : M string :=
  fun w =>
    match environ w !! name with
    | Some (String c s) => (w, Ok (String c s))
    | _ => (w, Raised (RuntimeError ("Missing required environment variable: " +:+ name)))
    end.

(** The subject and the severity attribute of the message are computed
    from the payload; the logged request keeps the payload. *)
Definition publish_incident_created_message (env : Env) (payload : dict) : M unit :=
  topic_arn <- _get_env_var "INCIDENTS_TOPIC_ARN" ;;
  Topic.publish env topic_arn payload.

End sns.

(** [sorted(l)] for strings, by code point. *)
Fixpoint insert_sorted (x : string) (l : list string) : list string :=
  match l with
  | [] => [x]
  | y :: rest => if String.leb x y then x :: l else y :: insert_sorted x rest
  end.

Definition sorted (l : list string) : list string := foldr insert_sorted [] l.

(* ================================================================== *)
(** * create_incident/handler.py *)
(* ================================================================== *)

Module create_incident.

Definition required_fields : list string :=
  ["title"; "description"; "severity"; "reported_by"].

Definition allowed_severity : list string := ["low"; "medium"; "high"; "critical"].

(** [[f for f in fields if f not in payload]] *)
Fixpoint missing_fields (fields : list string) (payload : json) : result (list string) :=
  match fields with
  | [] => Ok []
  | f :: rest =>
      present <~ py_in f payload ;;
      missing <~ missing_fields rest payload ;;
      Ok (if present then missing else f :: missing)
  end.

(** [not isinstance(payload.get(f), str) or not payload[f].strip()] *)
Definition not_a_nonempty_string (payload : json) (f : string) : result bool :=
  v <~ py_get payload f ;;
  if negb (isinstance_str v) then Ok true
  else
    v <~ py_getitem payload f ;;
    stripped <~ py_strip v ;;
    Ok (negb (str_truthy (Some stripped))).

Definition validation_error (message : string) : dict :=
  {[ "error" := JString "ValidationError"; "message" := JString message ]}.

Definition _validate_payload (payload : json) : result (bool * option dict) :=
  missing <~ missing_fields required_fields payload ;;
  match missing with
  | _ :: _ =>
      Ok (false, Some (validation_error ("Missing fields: " +:+ join ", " missing)))
  | [] =>
  bad <~ not_a_nonempty_string payload "title" ;;
  if bad then Ok (false, Some (validation_error "title must be a non-empty string")) else
  bad <~ not_a_nonempty_string payload "description" ;;
  if bad then Ok (false, Some (validation_error "description must be a non-empty string")) else
  bad <~ not_a_nonempty_string payload "reported_by" ;;
  if bad then Ok (false, Some (validation_error "reported_by must be a non-empty string")) else
  severity <~ py_get payload "severity" ;;
  allowed <~ py_in_set severity allowed_severity ;;
  if negb allowed
  then Ok (false, Some (validation_error
             ("severity must be one of: " +:+ join ", " (sorted allowed_severity))))
  else
  has_tags <~ py_in "tags" payload ;;
  bad_tags <~ (if has_tags
               then tags <~ py_getitem payload "tags" ;; Ok (negb (isinstance_list tags))
               else Ok false) ;;
  if bad_tags then Ok (false, Some (validation_error "tags must be a list of strings"))
  else Ok (true, None)
  end.

(** The dictionary [item] of the handler, with [tags] added when the
    payload has them. *)
Definition build_item (payload : json) (incident_id created_at : string) : result dict :=
  title <~ (v <~ py_getitem payload "title" ;; py_strip v) ;;
  description <~ (v <~ py_getitem payload "description" ;; py_strip v) ;;
  severity <~ py_getitem payload "severity" ;;
  reported_by <~ (v <~ py_getitem payload "reported_by" ;; py_strip v) ;;
  let item : dict :=
    {[ "incident_id" := JString incident_id;
       "title" := JString title;
       "description" := JString description;
       "severity" := severity;
       "reported_by" := JString reported_by;
       "created_at" := JString created_at;
       "status" := JString "open" ]} in
  has_tags <~ py_in "tags" payload ;;
  if has_tags
  then tags <~ py_getitem payload "tags" ;; Ok (<["tags" := tags]> item)
  else Ok item.

Definition lambda_handler `{PyLib} (env : Env) (event : option Event.t) : M Response :=
  if utils.is_options_request event then ret (utils.build_response 204 None) else
  if negb (method_in event ["POST"])
  then ret (utils.build_response 405
              (Some {[ "error" := JString "MethodNotAllowed";
                       "message" := JString "Only POST is supported for this resource" ]}))
  else
  parsed <- try_or_return (lift (utils.parse_json_body event)) is_ValueError
              (fun exc => utils.build_response 400
                 (Some {[ "error" := JString "BadRequest";
                          "message" := JString (str_exc exc) ]})) ;;
  match parsed with
  | inl response => ret response
  | inr payload =>
  validation <- lift (_validate_payload payload) ;;
  let '(is_valid, error_body) := validation in
  if negb is_valid then ret (utils.build_response 400 error_body) else
  let incident_id := str_uuid (uuid4 env) in
  let created_at := utcnow env in
  item <- lift (build_item payload incident_id created_at) ;;
  stored <- try_or_return (dynamodb.put_incident_item env item) is_ClientError
              (fun exc => utils.build_response 500
                 (Some {[ "error" := JString "InternalServerError";
                          "message" := JString "Failed to create incident (DynamoDB)";
                          "detail" := JString (str_exc exc) ]})) ;;
  match stored with
  | inl response => ret response
  | inr _ =>
  severity <- lift (py_getitem (JObject item) "severity") ;;
  title <- lift (py_getitem (JObject item) "title") ;;
  status <- lift (py_getitem (JObject item) "status") ;;
  let notification_payload : dict :=
    {[ "incident_id" := JString incident_id;
       "severity" := severity;
       "title" := title;
       "created_at" := JString created_at;
       "status" := status ]} in
  published <- try_or_return (sns.publish_incident_created_message env notification_payload)
                 is_Exception
                 (fun exc => utils.build_response 202
                    (Some {[ "incident_id" := JString incident_id;
                             "status" := JString "created";
                             "created_at" := JString created_at;
                             "warning" := JString "Incident stored but notification failed";
                             "sns_error" := JString (str_exc exc) ]})) ;;
  match published with
  | inl response => ret response
  | inr _ =>
      ret (utils.build_response 201
             (Some {[ "incident_id" := JString incident_id;
                      "status" := JString "created";
                      "created_at" := JString created_at ]}))
  end
  end
  end.

End create_incident.

(* ================================================================== *)
(** * get_incident/handler.py *)
(* ================================================================== *)

Module get_incident.

Definition lambda_handler (env : Env) (event : option Event.t) : M Response :=
  if utils.is_options_request event then ret (utils.build_response 204 None) else
  if negb (method_in event ["GET"])
  then ret (utils.build_response 405
              (Some {[ "error" := JString "MethodNotAllowed";
                       "message" := JString "Only GET is supported for this resource" ]}))
  else
  let path_params := default ∅ (Event.pathParameters (event_or_empty event)) in
  let incident_id := path_params !! "id" in
  match incident_id with
  | None | Some EmptyString =>
      ret (utils.build_response 400
             (Some {[ "error" := JString "BadRequest";
                      "message" := JString "Path parameter 'id' is required" ]}))
  | Some incident_id =>
  fetched <- try_or_return (dynamodb.get_incident_item env incident_id) is_ClientError
               (fun exc => utils.build_response 500
                  (Some {[ "error" := JString "InternalServerError";
                           "message" := JString "Failed to fetch incident";
                           "detail" := JString (str_exc exc) ]})) ;;
  match fetched with
  | inl response => ret response
  | inr item =>
      match item with
      | Some item =>
          if bool_decide (size item = 0%nat)
          then ret (utils.build_response 404
                      (Some {[ "error" := JString "NotFound";
                               "message" := JString ("Incident '" +:+ incident_id +:+ "' not found") ]}))
          else ret (utils.build_response 200 (Some item))
      | None =>
          ret (utils.build_response 404
                 (Some {[ "error" := JString "NotFound";
                          "message" := JString ("Incident '" +:+ incident_id +:+ "' not found") ]}))
      end
  end
  end.

End get_incident.

(* ================================================================== *)
(** * list_incidents/handler.py *)
(* ================================================================== *)

Module list_incidents.

Definition lambda_handler (fuel : nat) (env : Env) (event : option Event.t) : M Response :=
  if utils.is_options_request event then ret (utils.build_response 204 None) else
  if negb (method_in event ["GET"])
  then ret (utils.build_response 405
              (Some {[ "error" := JString "MethodNotAllowed";
                       "message" := JString "Only GET is supported for this resource" ]}))
  else
  scanned <- try_or_return (dynamodb.scan_incidents fuel env) is_ClientError
               (fun exc => utils.build_response 500
                  (Some {[ "error" := JString "InternalServerError";
                           "message" := JString "Failed to list incidents";
                           "detail" := JString (str_exc exc) ]})) ;;
  match scanned with
  | inl response => ret response
  | inr items =>
      ret (utils.build_response 200 (Some {[ "items" := JArray (JObject <$> items) ]}))
  end.

End list_incidents.

(* ================================================================== *)
(** * update_incident/handler.py *)
(* ================================================================== *)

Module update_incident.

Definition allowed_status : list string := ["open"; "in_progress"; "resolved"; "closed"].

Definition validation_error (message : string) : dict :=
  {[ "error" := JString "ValidationError"; "message" := JString message ]}.

Definition _validate_payload (payload : json) : result (bool * option dict) :=
  present <~ py_in "status" payload ;;
  if negb present then Ok (false, Some (validation_error "status is required")) else
  status <~ py_get payload "status" ;;
  allowed <~ py_in_set status allowed_status ;;
  if negb allowed
  then Ok (false, Some (validation_error
             ("status must be one of: " +:+ join ", " (sorted allowed_status))))
  else Ok (true, None).

(** [exc.response.get("Error", {}).get("Code")] of a [ClientError] *)
Definition error_code (exc : exn) : option string :=
  match exc with
  | ClientError code _ => Some code
  | _ => None
  end.

Definition lambda_handler `{PyLib} (env : Env) (event : option Event.t) : M Response :=
  if utils.is_options_request event then ret (utils.build_response 204 None) else
  if negb (method_in event ["PATCH"; "PUT"])
  then ret (utils.build_response 405
              (Some {[ "error" := JString "MethodNotAllowed";
                       "message" := JString "Only PATCH or PUT is supported for this resource" ]}))
  else
  let path_params := default ∅ (Event.pathParameters (event_or_empty event)) in
  let incident_id := path_params !! "id" in
  match incident_id with
  | None | Some EmptyString =>
      ret (utils.build_response 400
             (Some {[ "error" := JString "BadRequest";
                      "message" := JString "Path parameter 'id' is required" ]}))
  | Some incident_id =>
  parsed <- try_or_return (lift (utils.parse_json_body event)) is_ValueError
              (fun exc => utils.build_response 400
                 (Some {[ "error" := JString "BadRequest";
                          "message" := JString (str_exc exc) ]})) ;;
  match parsed with
  | inl response => ret response
  | inr payload =>
  validation <- lift (_validate_payload payload) ;;
  let '(is_valid, error_body) := validation in
  if negb is_valid then ret (utils.build_response 400 error_body) else
  new_status <- lift (py_getitem payload "status") ;;
  let updated_at := utcnow env in
  updated <- try_or_return (dynamodb.update_incident_status env incident_id new_status updated_at)
               is_ClientError
               (fun exc =>
                  if bool_decide (error_code exc = Some "ConditionalCheckFailedException")
                  then utils.build_response 404
                         (Some {[ "error" := JString "NotFound";
                                  "message" := JString ("Incident '" +:+ incident_id +:+ "' not found") ]})
                  else utils.build_response 500
                         (Some {[ "error" := JString "InternalServerError";
                                  "message" := JString "Failed to update incident status";
                                  "detail" := JString (str_exc exc) ]})) ;;
  match updated with
  | inl response => ret response
  | inr updated_item => ret (utils.build_response 200 (Some updated_item))
  end
  end
  end.

End update_incident.

(* ================================================================== *)
(** * health_check/handler.py *)
(* ================================================================== *)

Module health_check.

Definition lambda_handler (event : option Event.t) : Response :=
  {| statusCode := 200;
     headers := {[ "Content-Type" := "application/json";
                   "Access-Control-Allow-Origin" := "*";
                   "Access-Control-Allow-Methods" := "OPTIONS,GET,POST,PATCH,PUT,DELETE";
                   "Access-Control-Allow-Headers" := "Content-Type,Authorization" ]};
     body := {[ "status" := JString "ok" ]};
     isBase64Encoded := false |}.

End health_check.

(* ================================================================== *)
(** * Vocabulary of the specification *)
(* ================================================================== *)

(** The incidents table is configured under [name]. *)
Definition table_configured (w : World) (name : string) : Prop :=
  dynamodb.get_incidents_table w = (w, Ok name).




(** [event] is a POST whose body parses to [payload]. *)
Definition create_request `{PyLib} (event : option Event.t) (payload : json) : Prop :=
  method_in event ["POST"] = true ∧ utils.parse_json_body event = Ok payload.

(** [event] is a PATCH or PUT on the path id [incident_id] whose body
    parses to [payload]. *)
Definition update_request `{PyLib} (event : option Event.t) (incident_id : string)
    (payload : json) : Prop :=
  method_in event ["PATCH"; "PUT"] = true
  ∧ default ∅ (Event.pathParameters (event_or_empty event)) !! "id" = Some incident_id
  ∧ incident_id ≠ ""
  ∧ utils.parse_json_body event = Ok payload.

(** GET on the path id [incident_id] *)
Definition get_event (incident_id : string) : option Event.t :=
  Some (Event.mk (Some "GET") (Some {[ "id" := incident_id ]}) None false).

(** [path_params.get("id")] *)
Definition path_id (event : option Event.t) : option string :=
  default ∅ (Event.pathParameters (event_or_empty event)) !! "id".

(** The five functions behind the routes of the API. *)
Inductive handler : Type :=
  | Create
  | Get
  | List (fuel : nat)
  | Update
  | Health.

Definition invoke `{PyLib} (h : handler) (env : Env) (event : option Event.t) : M Response :=
  match h with
  | Create => create_incident.lambda_handler env event
  | Get => get_incident.lambda_handler env event
  | List fuel => list_incidents.lambda_handler fuel env event
  | Update => update_incident.lambda_handler env event
  | Health => ret (health_check.lambda_handler event)
  end.

(** The methods each handler accepts (the health check tests none). *)
Definition expected_methods (h : handler) : list string :=
  match h with
  | Create => ["POST"]
  | Get | List _ => ["GET"]
  | Update => ["PATCH"; "PUT"]
  | Health => []
  end.

(** The ways a request is turned away before the store step, with the
    status and the error kind of each. *)
Inductive rejected `{PyLib} : handler → option Event.t → Z → string → Prop :=
  | wrong_method h event :
      h ≠ Health →
      utils.is_options_request event = false →
      method_in event (expected_methods h) = false →
      rejected h event 405 "MethodNotAllowed"
  | missing_path_id h event :
      h = Get ∨ h = Update →
      method_in event (expected_methods h) = true →
      str_truthy (path_id event) = false →
      rejected h event 400 "BadRequest"
  | unusable_body h event text :
      h = Create ∨ (h = Update ∧ str_truthy (path_id event) = true) →
      method_in event (expected_methods h) = true →
      utils.parse_json_body event = Raised (ValueError text) →
      rejected h event 400 "BadRequest"
  | invalid_create_payload event payload error_body :
      create_request event payload →
      create_incident._validate_payload payload = Ok (false, error_body) →
      rejected Create event 400 "ValidationError"
  | invalid_update_payload event incident_id payload error_body :
      update_request event incident_id payload →
      update_incident._validate_payload payload = Ok (false, error_body) →
      rejected Update event 400 "ValidationError".

(** The header set of the specification. *)
Definition cors_headers : gmap string string :=
  {[ "Content-Type" := "application/json";
     "Access-Control-Allow-Origin" := "*";
     "Access-Control-Allow-Methods" := "OPTIONS,GET,POST,PATCH,PUT,DELETE";
     "Access-Control-Allow-Headers" := "Content-Type,Authorization" ]}.




(** The record keeps the trimmed text of the payload field [k]. *)
Definition trimmed_field (o record : dict) (k : string) : Prop :=
  ∃ s, o !! k = Some (JString s) ∧ record !! k = Some (JString (strip s)).

(** A response in the shape the specification asks of every response:
    the fixed headers; [error] and [message] in the body of an error
    response (status 400 and above); [detail] too when the status is 500. *)
Definition well_formed (response : Response) : Prop :=
  headers response = cors_headers
  ∧ ((400 ≤ statusCode response)%Z →
     is_Some (body response !! "error") ∧ is_Some (body response !! "message"))
  ∧ (statusCode response = 500%Z → is_Some (body response !! "detail")).

(* ================================================================== *)
(** * A scenario *)
(* ================================================================== *)

(** Concrete requests, worlds and environments, used to run the handlers. *)
Module Scenario.

Definition quoted (s : string) : string :=
  String (ascii_of_nat 34) s +:+ String (ascii_of_nat 34) EmptyString.

Definition entry (k v : string) : string := quoted k +:+ ": " +:+ v.

(** A create payload with surrounding blanks, tags and three keys the
    client has no say in. *)
Definition create_payload : dict :=
  {[ "title" := JString "  Disk full ";
     "description" := JString "Data volume at 100%";
     "severity" := JString "high";
     "reported_by" := JString " ana ";
     "tags" := JArray [JString "storage"];
     "incident_id" := JString "forged";
     "status" := JString "closed";
     "created_at" := JString "1999-01-01" ]}.

Definition create_text : string :=
  "{" +:+ entry "title" (quoted "  Disk full ") +:+ ", "
  +:+ entry "description" (quoted "Data volume at 100%") +:+ ", "
  +:+ entry "severity" (quoted "high") +:+ ", "
  +:+ entry "reported_by" (quoted " ana ") +:+ ", "
  +:+ entry "tags" ("[" +:+ quoted "storage" +:+ "]") +:+ ", "
  +:+ entry "incident_id" (quoted "forged") +:+ ", "
  +:+ entry "status" (quoted "closed") +:+ ", "
  +:+ entry "created_at" (quoted "1999-01-01") +:+ "}".

(** The same incident without the extra keys. *)
Definition plain_payload : dict :=
  {[ "title" := JString "  Disk full ";
     "description" := JString "Data volume at 100%";
     "severity" := JString "high";
     "reported_by" := JString " ana ";
     "tags" := JArray [JString "storage"] ]}.

Definition plain_text : string :=
  "{" +:+ entry "title" (quoted "  Disk full ") +:+ ", "
  +:+ entry "description" (quoted "Data volume at 100%") +:+ ", "
  +:+ entry "severity" (quoted "high") +:+ ", "
  +:+ entry "reported_by" (quoted " ana ") +:+ ", "
  +:+ entry "tags" ("[" +:+ quoted "storage" +:+ "]") +:+ "}".

Definition resolve_payload : dict := {[ "status" := JString "resolved" ]}.
Definition resolve_text : string := "{" +:+ entry "status" (quoted "resolved") +:+ "}".

Definition archive_payload : dict := {[ "status" := JString "archived" ]}.
Definition archive_text : string := "{" +:+ entry "status" (quoted "archived") +:+ "}".

(** The parser, on the texts of the scenario. *)
Definition loads (text : string) : option json :=
  if String.eqb text create_text then Some (JObject create_payload)
  else if String.eqb text plain_text then Some (JObject plain_payload)
  else if String.eqb text resolve_text then Some (JObject resolve_payload)
  else if String.eqb text archive_text then Some (JObject archive_payload)
  else None.

Definition lib : PyLib :=
  {| json_loads := loads;
     b64decode_utf8 := λ _, inl "Incorrect padding" |}.

Definition the_uuid : N := 0x123e4567e89b42d3a456426614174000%N.
Definition the_id : string := "123e4567-e89b-42d3-a456-426614174000".

Definition at_noon : Env :=
  mkEnv the_uuid "2024-05-01T12:00:00+00:00" (λ _, None) (λ _, 1%nat) None.

Definition later : Env :=
  mkEnv 0x9f86d081884c4d659a2feaa0c55ad015%N "2024-05-01T12:30:00+00:00"
        (λ _, None) (λ _, 2%nat) None.


(** The table service throttles every request. *)
Definition throttled : Env :=
  mkEnv the_uuid "2024-05-01T12:00:00+00:00"
        (λ _, Some ("ProvisionedThroughputExceededException",
                    "An error occurred (ProvisionedThroughputExceededException): rate exceeded"))
        (λ _, 1%nat) None.

Definition configuration : gmap string string :=
  {[ "INCIDENTS_TABLE_NAME" := "incidents";
     "INCIDENTS_TOPIC_ARN" := "arn:aws:sns:eu-west-1:000000000000:incidents" ]}.

Definition empty_world : World := mkWorld configuration ∅ [].

Definition old_record : dict :=
  {[ "incident_id" := JString the_id;
     "title" := JString "Login page down";
     "description" := JString "502 from the gateway";
     "severity" := JString "critical";
     "reported_by" := JString "ben";
     "created_at" := JString "2024-04-30T08:00:00+00:00";
     "status" := JString "open" ]}.

Definition other_record : dict :=
  {[ "incident_id" := JString "00000000-0000-4000-8000-000000000001";
     "title" := JString "Slow queries";
     "description" := JString "p99 above one second";
     "severity" := JString "low";
     "reported_by" := JString "cy";
     "created_at" := JString "2024-04-29T10:00:00+00:00";
     "status" := JString "in_progress" ]}.

(** A table that already holds the id the next create will draw. *)
Definition busy_world : World :=
  mkWorld configuration
    {[ the_id := old_record;
       "00000000-0000-4000-8000-000000000001" := other_record ]} [].

Definition post (text : string) : option Event.t :=
  Some (Event.mk (Some "POST") None (Some text) false).

Definition patch (incident_id text : string) : option Event.t :=
  Some (Event.mk (Some "PATCH") (Some {[ "id" := incident_id ]}) (Some text) false).

Definition with_method (method : string) : option Event.t :=
  Some (Event.mk (Some method) None None false).

End Scenario.

(* ================================================================== *)
(** * Further vocabulary *)
(* ================================================================== *)

(** What a run may do to the world: the environment stays, the log of
    requests grows at its end, no record is removed and a record that was
    there changes at most in [status] and [updated_at]. *)
Definition evolves (w w' : World) : Prop :=
  environ w' = environ w
  ∧ requests w `prefix_of` requests w'
  ∧ ∀ incident_id record,
      items w !! incident_id = Some record →
      ∃ record',
        items w' !! incident_id = Some record'
        ∧ ∀ k, k ≠ "status" → k ≠ "updated_at" → record' !! k = record !! k.

(** Every run of [m], however it ends, takes a world to one related by [R]. *)
Definition keeps {A} (R : World → World → Prop) (m : M A) : Prop :=
  ∀ w w' r, m w = (w', r) → R w w'.

(** The table and the environment are as before. *)
Definition same_table (w w' : World) : Prop :=
  environ w' = environ w ∧ items w' = items w.

Definition is_Scan (r : request) : bool :=
  match r with Scan _ _ => true | _ => false end.

(** Whatever [m] raises satisfies [P]. *)
Definition raises_only {A} (P : exn → Prop) (m : M A) : Prop :=
  ∀ w w' e, m w = (w', Raised e) → P e.

Definition pure_raises_only {A} (P : exn → Prop) (r : result A) : Prop :=
  ∀ e, r = Raised e → P e.

(** The exceptions of the Python operations on a payload. *)
Definition is_lookup_error (e : exn) : Prop :=
  match e with
  | TypeError _ | AttributeError _ | KeyError _ => True
  | _ => False
  end.

(** The exceptions no [except] clause of the handlers is written for. *)
Definition is_uncaught_kind (e : exn) : Prop :=
  match e with
  | TypeError _ | AttributeError _ | KeyError _ | RuntimeError _ => True
  | ClientError _ _ | ValueError _ => False
  end.


(* ================================================================== *)
(** * Case conversion of text *)
(* ================================================================== *)

(** [str.lower] on one character, for the code points below 256: the
    letters A to Z and the accented capitals of Latin-1. *)
Definition lower_char (c : ascii) : ascii :=
  let n := nat_of_ascii c in
  if (((65 <=? n) && (n <=? 90))
      || ((192 <=? n) && (n <=? 222) && negb (n =? 215)))%nat
  then ascii_of_nat (n + 32)
  else c.

(** [s.lower()] *)
Fixpoint lower (s : string) : string :=
  match s with
  | String c s' => String (lower_char c) (lower s')
  | EmptyString => EmptyString
  end.

(** [str.upper] on one character: a to z and the accented small letters
    of Latin-1 lose 32, the sharp s (223) becomes SS.  The upper-case
    forms of the micro sign (181) and of y with diaeresis (255) are code
    points above 255, which text here does not have: they are left as
    they are, and what is proved of [upper] is stated for text without
    them. *)
Definition upper_char (c : ascii) : string :=
  let n := nat_of_ascii c in
  if (((97 <=? n) && (n <=? 122))
      || ((224 <=? n) && (n <=? 254) && negb (n =? 247)))%nat
  then String (ascii_of_nat (n - 32)) EmptyString
  else if (n =? 223)%nat then "SS"
  else String c EmptyString.

(** [s.upper()] *)
Fixpoint upper (s : string) : string :=
  match s with
  | String c s' => upper_char c +:+ upper s'
  | EmptyString => EmptyString
  end.

(** The text whose upper-case form stays below code point 256. *)
Fixpoint upper_in_range (s : string) : bool :=
  match s with
  | String c s' =>
      negb ((nat_of_ascii c =? 181)%nat || (nat_of_ascii c =? 255)%nat)
      && upper_in_range s'
  | EmptyString => true
  end.

(* ================================================================== *)
(** * streamlit_app/app.py: the calls to the API *)
(* ================================================================== *)

(** [make_request] does the HTTP exchange and writes to the page; it is
    a parameter here, given the method, the endpoint and the JSON data.
    The debugging [print] of [create_incident] is left out. *)
Module app.

Definition allowed_severities : list string := ["critical"; "high"; "medium"; "low"].

Definition create_incident (make_request : string → string → option dict → result json)
    (title description severity : string) (tags : option (list string))
    (reported_by : string) : result json :=
  let tags := default [] tags in
  let severity := lower severity in
  if negb (bool_decide (severity ∈ allowed_severities))
  then Ok (JObject {[ "error" := JString ("Invalid severity. Must be one of: "
                                          +:+ join ", " allowed_severities) ]})
  else
    let data : dict :=
      {[ "title" := JString (strip title);
         "description" := JString (strip description);
         "severity" := JString (lower severity);
         "reported_by" := JString (strip reported_by);
         "tags" := JArray (JString <$> match tags with
                                       | [] => []
                                       | _ => strip <$> tags
                                       end) ]} in
    match make_request "POST" "/incidents" (Some data) with
    | Ok response => Ok response
    | Raised e =>
        Ok (JObject {[ "error" := JString ("Failed to create incident: " +:+ str_exc e) ]})
    | TimedOut => TimedOut
    end.

Definition update_incident_status
    (make_request : string → string → option dict → result json)
    (incident_id status : string) : result json :=
  let data : dict := {[ "status" := JString (upper status) ]} in
  make_request "PATCH" ("/incidents/" +:+ incident_id) (Some data).

Definition normalize_status (status : string) : string :=
  if negb (str_truthy (Some status)) then "UNKNOWN"
  else
    let status := upper (strip status) in
    if bool_decide (status ∈ ["OPEN"]) then "OPEN"
    else if bool_decide (status ∈ ["IN_PROGRESS"; "IN PROGRESS"; "INPROGRESS"])
         then "IN_PROGRESS"
    else if bool_decide (status ∈ ["RESOLVED"; "CLOSED"; "DONE"]) then "RESOLVED"
    else status.

End app.

(* ================================================================== *)
(** * More cases *)
(* ================================================================== *)

Module Cases.

(** Bodies that are JSON but no object, and an object whose severity is
    a list. *)
Definition list_severity_payload : dict :=
  <["severity" := JArray [JString "high"]]> Scenario.plain_payload.

(** The status as the dashboard writes it. *)
Definition shouted_payload : dict := {[ "status" := JString "RESOLVED" ]}.
Definition shouted_text : string :=
  "{" +:+ Scenario.entry "status" (Scenario.quoted "RESOLVED") +:+ "}".

Definition loads (text : string) : option json :=
  if String.eqb text "null" then Some JNull
  else if String.eqb text "[1, 2]" then Some (JArray [JInt 1; JInt 2])
  else if String.eqb text "list severity" then Some (JObject list_severity_payload)
  else if String.eqb text shouted_text then Some (JObject shouted_payload)
  else Scenario.loads text.

Definition lib : PyLib :=
  {| json_loads := loads;
     b64decode_utf8 := λ text, if String.eqb text "bnVsbA==" then inr "null"
                               else inl "Incorrect padding" |}.

(** Neither the table nor the topic is configured. *)
Definition bare_world : World :=
  mkWorld ∅ (items Scenario.busy_world) [].


(** The service fails the second request it gets. *)
Definition second_request_fails : Env :=
  mkEnv Scenario.the_uuid "2024-05-01T12:00:00+00:00"
        (λ n, if (n =? 1)%nat then Some ("InternalServerError", "service unavailable")
              else None)
        (λ _, 1%nat) None.


End Cases.

(* ================================================================== *)
(** * Properties *)
(* ================================================================== *)

(** ** Running the monad *)

Lemma bind_Ok {A B} (m : M A) (k : A → M B) w w' a :
  m w = (w', Ok a) → bind m k w = k a w'.
Proof. intros E. unfold bind. by rewrite E. Qed.

Lemma bind_Raised {A B} (m : M A) (k : A → M B) w w' e :
  m w = (w', Raised e) → bind m k w = (w', Raised e).
Proof. intros E. unfold bind. by rewrite E. Qed.

Lemma try_or_return_Ok {A} (m : M A) handles on_exc w w' a :
  m w = (w', Ok a) → try_or_return m handles on_exc w = (w', Ok (inr a)).
Proof. intros E. unfold try_or_return, try_except, bind, ret. by rewrite E. Qed.

Lemma try_or_return_caught {A} (m : M A) handles on_exc w w' e :
  m w = (w', Raised e) → handles e = true →
  try_or_return m handles on_exc w = (w', Ok (inl (on_exc e))).
Proof. intros E He. unfold try_or_return, try_except, bind, ret. by rewrite E, He. Qed.

Lemma try_or_return_escapes {A} (m : M A) handles on_exc w w' e :
  m w = (w', Raised e) → handles e = false →
  try_or_return m handles on_exc w = (w', Raised e).
Proof. intros E He. unfold try_or_return, try_except, bind, ret. by rewrite E, He. Qed.


Lemma ret_inv {A} (a b : A) w w' : ret a w = (w', Ok b) → a = b ∧ w' = w.
Proof. unfold ret. by intros [= -> ->]. Qed.

Lemma lift_inv {A} (r : result A) (a : A) w w' : lift r w = (w', Ok a) → r = Ok a ∧ w' = w.
Proof. unfold lift. by intros [= -> ->]. Qed.

Lemma bind_inv {A B} (m : M A) (k : A → M B) w w' b :
  bind m k w = (w', Ok b) → ∃ w1 a, m w = (w1, Ok a) ∧ k a w1 = (w', Ok b).
Proof.
  unfold bind. destruct (m w) as [w1 [a|e|]]; [eauto|discriminate..].
Qed.

Lemma try_or_return_inv {A} (m : M A) handles on_exc w w' x :
  try_or_return m handles on_exc w = (w', Ok x) →
  (∃ a, x = inr a ∧ m w = (w', Ok a))
  ∨ (∃ e, x = inl (on_exc e) ∧ m w = (w', Raised e) ∧ handles e = true).
Proof.
  unfold try_or_return, try_except, bind, ret.
  destruct (m w) as [w1 [a|e|]].
  - intros [= -> <-]. left. eauto.
  - destruct (handles e) eqn:He; [|discriminate]. intros [= -> <-]. right. eauto.
  - discriminate.
Qed.

Lemma lift_world {A} (r r' : result A) w w' : lift r w = (w', r') → w' = w.
Proof. unfold lift. by intros [= -> _]. Qed.

(** ** Validation *)

Lemma not_a_nonempty_string_false payload f :
  create_incident.not_a_nonempty_string payload f = Ok false →
  ∃ o s, payload = JObject o ∧ o !! f = Some (JString s) ∧ strip s ≠ "".
Proof.
  unfold create_incident.not_a_nonempty_string.
  destruct payload as [| | | | | |o]; try discriminate.
  simpl. destruct (o !! f) as [v|] eqn:Hf; simpl; [|discriminate].
  destruct v; simpl; try discriminate.
  intros H. exists o, s. repeat split; [done|].
  intros Hs. rewrite Hs in H. discriminate.
Qed.

Lemma py_in_set_true v allowed :
  py_in_set v allowed = Ok true → ∃ s, v = JString s ∧ s ∈ allowed.
Proof.
  destruct v; simpl; try discriminate.
  intros H. exists s. split; [done|].
  injection H as H. by apply bool_decide_eq_true in H.
Qed.

Lemma validate_create_inv payload :
  create_incident._validate_payload payload = Ok (true, None) →
  ∃ o title description reported_by severity,
    payload = JObject o
    ∧ o !! "title" = Some (JString title) ∧ strip title ≠ ""
    ∧ o !! "description" = Some (JString description) ∧ strip description ≠ ""
    ∧ o !! "reported_by" = Some (JString reported_by) ∧ strip reported_by ≠ ""
    ∧ o !! "severity" = Some (JString severity)
    ∧ severity ∈ create_incident.allowed_severity
    ∧ (o !! "tags" = None ∨ ∃ l, o !! "tags" = Some (JArray l)).
Proof.
  intros H. unfold create_incident._validate_payload in H.
  destruct (create_incident.missing_fields _ payload) as [[|]| |]; simpl in H; try discriminate.
  destruct (create_incident.not_a_nonempty_string payload "title")
    as [[]| |] eqn:Ht; simpl in H; try discriminate.
  destruct (create_incident.not_a_nonempty_string payload "description")
    as [[]| |] eqn:Hd; simpl in H; try discriminate.
  destruct (create_incident.not_a_nonempty_string payload "reported_by")
    as [[]| |] eqn:Hr; simpl in H; try discriminate.
  apply not_a_nonempty_string_false in Ht as (o & title & -> & Ht & Ht').
  apply not_a_nonempty_string_false in Hd as (? & description & [= <-] & Hd & Hd').
  apply not_a_nonempty_string_false in Hr as (? & reported_by & [= <-] & Hr & Hr').
  simpl in H.
  destruct (py_in_set _ _) as [[]| |] eqn:Hs; simpl in H; try discriminate.
  apply py_in_set_true in Hs as (severity & Hs & Hin).
  exists o, title, description, reported_by, severity.
  repeat (split; [done|]).
  split.
  { destruct (o !! "severity"); simpl in Hs; by subst. }
  split; [done|].
  destruct (o !! "tags") as [tags|] eqn:Htags; [right|by left].
  rewrite bool_decide_eq_true_2 in H by eauto. simpl in H.
  destruct tags; simpl in H; try discriminate. eauto.
Qed.

Lemma validate_update_inv payload :
  update_incident._validate_payload payload = Ok (true, None) →
  ∃ o status,
    payload = JObject o ∧ o !! "status" = Some (JString status)
    ∧ status ∈ update_incident.allowed_status.
Proof.
  intros H. unfold update_incident._validate_payload in H.
  destruct (py_in "status" payload) as [[]| |] eqn:Hin; simpl in H; try discriminate.
  destruct payload as [| | | | | |o]; simpl in H; try discriminate.
  destruct (py_in_set _ _) as [[]| |] eqn:Hs; simpl in H; try discriminate.
  apply py_in_set_true in Hs as (status & Hs & Hal).
  exists o, status. repeat split; [|done].
  destruct (o !! "status"); simpl in Hs; [by subst|discriminate].
Qed.

(** The item the create handler writes for a payload held in [o]. *)
Lemma build_item_valid o title description reported_by severity incident_id created_at :
  o !! "title" = Some (JString title) →
  o !! "description" = Some (JString description) →
  o !! "reported_by" = Some (JString reported_by) →
  o !! "severity" = Some severity →
  create_incident.build_item (JObject o) incident_id created_at =
    Ok (let item : dict :=
          {[ "incident_id" := JString incident_id;
             "title" := JString (strip title);
             "description" := JString (strip description);
             "severity" := severity;
             "reported_by" := JString (strip reported_by);
             "created_at" := JString created_at;
             "status" := JString "open" ]} in
        match o !! "tags" with
        | Some tags => <["tags" := tags]> item
        | None => item
        end).
Proof.
  intros Ht Hd Hr Hs. unfold create_incident.build_item. simpl.
  rewrite Ht, Hd, Hr, Hs. simpl.
  destruct (o !! "tags") as [tags|] eqn:Htags.
  - rewrite bool_decide_eq_true_2 by eauto. done.
  - rewrite bool_decide_eq_false_2 by (intros [? ?]; done). done.
Qed.

Lemma is_options_false event methods :
  method_in event methods = true → "OPTIONS" ∉ methods →
  utils.is_options_request event = false.
Proof.
  unfold method_in, utils.is_options_request. intros Hm Hno.
  destruct (Event.httpMethod (event_or_empty event)) as [m|]; [|done].
  apply bool_decide_eq_true in Hm. apply bool_decide_eq_false_2.
  intros [= ->]. done.
Qed.

Lemma not_options_POST : "OPTIONS" ∉ ["POST"].
Proof. intros H%list_elem_of_In. simpl in H. intuition discriminate. Qed.
Lemma not_options_GET : "OPTIONS" ∉ ["GET"].
Proof. intros H%list_elem_of_In. simpl in H. intuition discriminate. Qed.
Lemma not_options_PATCH_PUT : "OPTIONS" ∉ ["PATCH"; "PUT"].
Proof. intros H%list_elem_of_In. simpl in H. intuition discriminate. Qed.



Lemma put_incident_item_fault env w name item code text :
  table_configured w name →
  table_fault env (length (requests w)) = Some (code, text) →
  dynamodb.put_incident_item env item w =
    (logged w (PutItem name item), Raised (ClientError code text)).
Proof.
  intros Hc Hf. unfold dynamodb.put_incident_item.
  rewrite (bind_Ok _ _ _ _ _ Hc). unfold Table.put_item, Table.send, bind.
  by rewrite Hf.
Qed.


Lemma get_incident_item_fault env w name key code text :
  table_configured w name →
  table_fault env (length (requests w)) = Some (code, text) →
  dynamodb.get_incident_item env key w =
    (logged w (GetItem name key), Raised (ClientError code text)).
Proof.
  intros Hc Hf. unfold dynamodb.get_incident_item.
  rewrite (bind_Ok _ _ _ _ _ Hc). unfold Table.get_item, Table.send, bind.
  by rewrite Hf.
Qed.



Lemma update_incident_status_fault env w name key status updated_at code text :
  table_configured w name →
  table_fault env (length (requests w)) = Some (code, text) →
  dynamodb.update_incident_status env key status updated_at w =
    (logged w (UpdateItem name key status updated_at), Raised (ClientError code text)).
Proof.
  intros Hc Hf. unfold dynamodb.update_incident_status.
  rewrite (bind_Ok _ _ _ _ _ Hc). unfold Table.update_item, Table.send, bind.
  by rewrite Hf.
Qed.






(** Steps of a handler run: the next bound computation returns. *)
Ltac step_with tac := erewrite bind_Ok; [|tac]; cbv beta iota.
Ltac step_lift H := step_with ltac:(unfold lift; rewrite H; reflexivity).

(** ** Create *)


(** The item of a valid payload, field by field. *)
Lemma build_item_of_valid payload incident_id created_at :
  create_incident._validate_payload payload = Ok (true, None) →
  ∃ o item,
    payload = JObject o
    ∧ create_incident.build_item payload incident_id created_at = Ok item
    ∧ item !! "incident_id" = Some (JString incident_id)
    ∧ trimmed_field o item "title"
    ∧ trimmed_field o item "description"
    ∧ trimmed_field o item "reported_by"
    ∧ item !! "severity" = o !! "severity"
    ∧ item !! "tags" = o !! "tags"
    ∧ item !! "status" = Some (JString "open")
    ∧ item !! "created_at" = Some (JString created_at)
    ∧ (∃ severity, item !! "severity" = Some (JString severity)
                   ∧ severity ∈ create_incident.allowed_severity)
    ∧ dom item = {[ "incident_id"; "title"; "description"; "severity";
                    "reported_by"; "created_at"; "status" ]}
                 ∪ (if o !! "tags" is Some _ then {[ "tags" ]} else ∅).
Proof.
  intros Hv.
  destruct (validate_create_inv _ Hv)
    as (o & title & description & reported_by & severity & -> & Ht & _ & Hd & _
        & Hr & _ & Hs & Hal & Htags).
  eexists o, _. split; [done|]. split.
  { by apply build_item_valid. }
  unfold trimmed_field. cbv zeta.
  assert (Hdom : ∀ (m : dict) k v, dom (<[k := v]> m) = {[ k ]} ∪ dom m)
    by (intros; apply dom_insert_L).
  destruct (o !! "tags") as [tags|] eqn:E;
    (split_and!;
     [ by simplify_map_eq
     | exists title; by simplify_map_eq
     | exists description; by simplify_map_eq
     | exists reported_by; by simplify_map_eq
     | by simplify_map_eq
     | by simplify_map_eq
     | by simplify_map_eq
     | by simplify_map_eq
     | exists severity; by simplify_map_eq
     | rewrite !Hdom, dom_singleton_L; set_solver ]).
Qed.

(** ** Get *)




(** ** Update status *)




(** ** List *)



(** The last page holds all that remains. *)
Lemma page_without_key env w start :
  Table.LastEvaluatedKey (Table.page env w start) = None →
  Table.Items (Table.page env w start) = drop start (Table.scan_order w).
Proof.
  unfold Table.page. simpl.
  set (rest := drop start (Table.scan_order w)).
  set (n := scan_limit env start).
  destruct (Nat.ltb_spec (start + length (take n rest)) (length (Table.scan_order w)))
    as [|Hge]; [discriminate|]. intros _.
  assert (Hrest : length rest = (length (Table.scan_order w) - start)%nat)
    by (unfold rest; apply length_drop).
  rewrite length_take in Hge.
  apply take_ge. lia.
Qed.




(** ** Create: the notification fails, or the id is taken *)





(** ** Requests turned away before the store step *)

Ltac validation_cases H :=
  repeat match type of H with
         | Ok (false, _) = Ok (false, _) => injection H as <-; eauto
         | context [pure_bind ?r _] =>
             destruct r as [?| |]; cbn [pure_bind] in H; try discriminate
         | context [if ?b then _ else _] =>
             destruct b; cbn [pure_bind negb] in H; try discriminate
         | context [match ?l with [] => _ | _ :: _ => _ end] =>
             destruct l; cbn [pure_bind] in H; try discriminate
         end.

Lemma create_validation_error payload error_body :
  create_incident._validate_payload payload = Ok (false, error_body) →
  ∃ message, error_body = Some (create_incident.validation_error message).
Proof.
  intros H. unfold create_incident._validate_payload in H.
  validation_cases H.
Qed.

Lemma update_validation_error payload error_body :
  update_incident._validate_payload payload = Ok (false, error_body) →
  ∃ message, error_body = Some (update_incident.validation_error message).
Proof.
  intros H. unfold update_incident._validate_payload in H.
  validation_cases H.
Qed.

Lemma not_options_expected h : "OPTIONS" ∉ expected_methods h.
Proof.
  destruct h; simpl;
    [apply not_options_POST | apply not_options_GET | apply not_options_GET
    | apply not_options_PATCH_PUT | apply not_elem_of_nil].
Qed.

(** A 400 or 405 is only ever returned in the world the request came in. *)
Ltac not_a_rejection Hs := exfalso; simpl in Hs; destruct Hs; discriminate.

Lemma create_rejection_keeps_world `{PyLib} env event w w' response :
  create_incident.lambda_handler env event w = (w', Ok response) →
  statusCode response = 400%Z ∨ statusCode response = 405%Z →
  w' = w.
Proof.
  unfold create_incident.lambda_handler.
  destruct (utils.is_options_request event).
  { by intros [_ ->]%ret_inv. }
  destruct (method_in event ["POST"]); cbn [negb].
  2:{ by intros [_ ->]%ret_inv. }
  intros (w1 & parsed & Hparse & Hrun)%bind_inv Hs.
  apply try_or_return_inv in Hparse as [(payload & -> & Hp) | (e & -> & Hp & _)];
    apply lift_world in Hp as ->.
  2:{ by apply ret_inv in Hrun as [_ ->]. }
  apply bind_inv in Hrun as (w2 & [is_valid error_body] & [Hv ->]%lift_inv & Hrun).
  destruct is_valid; cbn [negb] in Hrun.
  2:{ by apply ret_inv in Hrun as [_ ->]. }
  apply bind_inv in Hrun as (w3 & item & _ & Hrun).
  apply bind_inv in Hrun as (w4 & stored & Hput & Hrun).
  apply try_or_return_inv in Hput as [(u & -> & _) | (e & -> & _)].
  2:{ apply ret_inv in Hrun as [<- _]. not_a_rejection Hs. }
  apply bind_inv in Hrun as (w5 & severity & _ & Hrun).
  apply bind_inv in Hrun as (w6 & title & _ & Hrun).
  apply bind_inv in Hrun as (w7 & status & _ & Hrun).
  apply bind_inv in Hrun as (w8 & published & Hpub & Hrun).
  apply try_or_return_inv in Hpub as [(u' & -> & _) | (e & -> & _)];
    apply ret_inv in Hrun as [<- _]; not_a_rejection Hs.
Qed.

Lemma get_rejection_keeps_world env event w w' response :
  get_incident.lambda_handler env event w = (w', Ok response) →
  statusCode response = 400%Z ∨ statusCode response = 405%Z →
  w' = w.
Proof.
  unfold get_incident.lambda_handler.
  destruct (utils.is_options_request event).
  { by intros [_ ->]%ret_inv. }
  destruct (method_in event ["GET"]); cbn [negb].
  2:{ by intros [_ ->]%ret_inv. }
  destruct (default ∅ _ !! "id") as [[|c s]|].
  1,3: by intros [_ ->]%ret_inv.
  intros (w1 & fetched & Hget & Hrun)%bind_inv Hs.
  apply try_or_return_inv in Hget as [(item & -> & _) | (e & -> & _)].
  2:{ apply ret_inv in Hrun as [<- _]. not_a_rejection Hs. }
  destruct item as [item|].
  - destruct (bool_decide (size item = 0%nat));
      apply ret_inv in Hrun as [<- _]; not_a_rejection Hs.
  - apply ret_inv in Hrun as [<- _]. not_a_rejection Hs.
Qed.

Lemma list_rejection_keeps_world fuel env event w w' response :
  list_incidents.lambda_handler fuel env event w = (w', Ok response) →
  statusCode response = 400%Z ∨ statusCode response = 405%Z →
  w' = w.
Proof.
  unfold list_incidents.lambda_handler.
  destruct (utils.is_options_request event).
  { by intros [_ ->]%ret_inv. }
  destruct (method_in event ["GET"]); cbn [negb].
  2:{ by intros [_ ->]%ret_inv. }
  intros (w1 & scanned & Hscan & Hrun)%bind_inv Hs.
  apply try_or_return_inv in Hscan as [(records & -> & _) | (e & -> & _)];
    apply ret_inv in Hrun as [<- _]; not_a_rejection Hs.
Qed.

Lemma update_rejection_keeps_world `{PyLib} env event w w' response :
  update_incident.lambda_handler env event w = (w', Ok response) →
  statusCode response = 400%Z ∨ statusCode response = 405%Z →
  w' = w.
Proof.
  unfold update_incident.lambda_handler.
  destruct (utils.is_options_request event).
  { by intros [_ ->]%ret_inv. }
  destruct (method_in event ["PATCH"; "PUT"]); cbn [negb].
  2:{ by intros [_ ->]%ret_inv. }
  destruct (default ∅ _ !! "id") as [[|c s]|].
  1,3: by intros [_ ->]%ret_inv.
  intros (w1 & parsed & Hparse & Hrun)%bind_inv Hs.
  apply try_or_return_inv in Hparse as [(payload & -> & Hp) | (e & -> & Hp & _)];
    apply lift_world in Hp as ->.
  2:{ by apply ret_inv in Hrun as [_ ->]. }
  apply bind_inv in Hrun as (w2 & [is_valid error_body] & [Hv ->]%lift_inv & Hrun).
  destruct is_valid; cbn [negb] in Hrun.
  2:{ by apply ret_inv in Hrun as [_ ->]. }
  apply bind_inv in Hrun as (w3 & new_status & _ & Hrun).
  apply bind_inv in Hrun as (w4 & updated & Hupd & Hrun).
  apply try_or_return_inv in Hupd as [(record & -> & _) | (e & -> & _)];
    apply ret_inv in Hrun as [<- _].
  - not_a_rejection Hs.
  - destruct (bool_decide _); not_a_rejection Hs.
Qed.

(** C7.  A request turned away before the store step (wrong method: 405
    MethodNotAllowed; missing path id: 400 BadRequest; missing or
    unparseable body: 400 BadRequest; payload that fails validation: 400
    ValidationError) gets its response in the world it came in: no request
    is made to the table or the topic and the table is unchanged.  No
    response with status 400 or 405 comes about in any other way. *)
Theorem rejected_before_any_store_access `{PyLib} h env event w :
  (∀ status kind,
     rejected h event status kind →
     ∃ response,
       invoke h env event w = (w, Ok response)
       ∧ statusCode response = status
       ∧ body response !! "error" = Some (JString kind))
  ∧ (∀ w' response,
       invoke h env event w = (w', Ok response) →
       statusCode response = 400%Z ∨ statusCode response = 405%Z →
       w' = w).
Proof.
  split.
  2:{ intros w' response Hrun Hs. destruct h; simpl in Hrun.
      - by eapply create_rejection_keeps_world.
      - by eapply get_rejection_keeps_world.
      - by eapply list_rejection_keeps_world.
      - by eapply update_rejection_keeps_world.
      - apply ret_inv in Hrun as [<- _]. not_a_rejection Hs. }
  intros status kind Hrej. revert env w. destruct Hrej as
    [h event Hh Hopt Hm
    |h event Hh Hm Hid
    |h event text Hh Hm Hparse
    |event payload error_body [Hm Hparse] Hv
    |event incident_id payload error_body (Hm & Hid & Hne & Hparse) Hv]; intros env w.
  - destruct h; try done; simpl in Hm; eexists;
      (split; [unfold invoke, create_incident.lambda_handler,
                 get_incident.lambda_handler, list_incidents.lambda_handler,
                 update_incident.lambda_handler;
               rewrite Hopt, Hm; reflexivity|done]).
  - pose proof (is_options_false _ _ Hm (not_options_expected h)) as Hopt.
    unfold path_id in Hid.
    destruct Hh as [-> | ->]; simpl in Hm; eexists;
      (split; [unfold invoke, get_incident.lambda_handler, update_incident.lambda_handler;
               rewrite Hopt, Hm; cbn [negb];
               destruct (default ∅ _ !! "id") as [[|c s]|]; try discriminate Hid;
               reflexivity|done]).
  - pose proof (is_options_false _ _ Hm (not_options_expected h)) as Hopt.
    destruct Hh as [-> | [-> Hid]]; simpl in Hm; eexists.
    + split.
      { unfold invoke, create_incident.lambda_handler.
        rewrite Hopt, Hm. cbn [negb].
        step_with ltac:(eapply try_or_return_caught; [unfold lift; by rewrite Hparse|done]).
        reflexivity. }
      done.
    + split.
      { unfold invoke, update_incident.lambda_handler.
        rewrite Hopt, Hm. cbn [negb]. unfold path_id in Hid.
        destruct (default ∅ _ !! "id") as [[|c s]|]; try discriminate Hid.
        step_with ltac:(eapply try_or_return_caught; [unfold lift; by rewrite Hparse|done]).
        reflexivity. }
      done.
  - destruct (create_validation_error _ _ Hv) as [message ->].
    eexists. split.
    { unfold invoke, create_incident.lambda_handler.
      rewrite (is_options_false _ _ Hm not_options_POST), Hm. cbn [negb].
      step_with ltac:(apply try_or_return_Ok; unfold lift; rewrite Hparse; reflexivity).
      step_lift Hv. reflexivity. }
    done.
  - destruct (update_validation_error _ _ Hv) as [message ->].
    eexists. split.
    { unfold invoke, update_incident.lambda_handler.
      rewrite (is_options_false _ _ Hm not_options_PATCH_PUT), Hm. cbn [negb].
      rewrite Hid. destruct incident_id as [|c s]; [by contradict Hne|].
      step_with ltac:(apply try_or_return_Ok; unfold lift; rewrite Hparse; reflexivity).
      step_lift Hv. reflexivity. }
    done.
Qed.

(** ** Preflight and the shape of responses *)

(** C8.  An event whose method is OPTIONS is answered by the create, get,
    list and update handlers with 204 and the empty JSON object as body,
    whatever its path parameters and body and whatever the table holds;
    the world is left as it was: no request to the table or the topic. *)
Theorem options_is_answered_204 `{PyLib} h env event w :
  h ≠ Health →
  Event.httpMethod (event_or_empty event) = Some "OPTIONS" →
  invoke h env event w =
    (w, Ok {| statusCode := 204;
              headers := cors_headers;
              body := ∅;
              isBase64Encoded := false |}).
Proof.
  intros Hh Hm.
  assert (Hopt : utils.is_options_request event = true).
  { unfold utils.is_options_request. by apply bool_decide_eq_true_2. }
  destruct h; try done;
    unfold invoke, create_incident.lambda_handler, get_incident.lambda_handler,
      list_incidents.lambda_handler, update_incident.lambda_handler;
    by rewrite Hopt.
Qed.

(** Each way the handlers build a response. *)
Lemma build_response_well_formed status_code fields :
  ((400 ≤ status_code)%Z →
   is_Some (fields !! "error") ∧ is_Some (fields !! "message")) →
  (status_code = 500%Z → is_Some (fields !! "detail")) →
  well_formed (utils.build_response status_code (Some fields)).
Proof. intros He Hd. by split_and!. Qed.

Ltac response_shape :=
  apply build_response_well_formed; simpl;
  [ first [ intros; lia | intros _; split; eexists; by simplify_map_eq ]
  | first [ intros; lia | intros _; eexists; by simplify_map_eq ] ].

Lemma create_well_formed `{PyLib} env event w w' response :
  create_incident.lambda_handler env event w = (w', Ok response) → well_formed response.
Proof.
  unfold create_incident.lambda_handler.
  destruct (utils.is_options_request event).
  { intros [<- _]%ret_inv. by split_and!. }
  destruct (method_in event ["POST"]); cbn [negb].
  2:{ intros [<- _]%ret_inv. response_shape. }
  intros (w1 & parsed & Hparse & Hrun)%bind_inv.
  apply try_or_return_inv in Hparse as [(payload & -> & _) | (e & -> & _)].
  2:{ apply ret_inv in Hrun as [<- _]. response_shape. }
  apply bind_inv in Hrun as (w2 & [is_valid error_body] & [Hv ->]%lift_inv & Hrun).
  destruct is_valid; cbn [negb] in Hrun.
  2:{ apply ret_inv in Hrun as [<- _].
      destruct (create_validation_error _ _ Hv) as [message ->]. response_shape. }
  apply bind_inv in Hrun as (w3 & item & _ & Hrun).
  apply bind_inv in Hrun as (w4 & stored & Hput & Hrun).
  apply try_or_return_inv in Hput as [(u & -> & _) | (e & -> & _)].
  2:{ apply ret_inv in Hrun as [<- _]. response_shape. }
  apply bind_inv in Hrun as (w5 & severity & _ & Hrun).
  apply bind_inv in Hrun as (w6 & title & _ & Hrun).
  apply bind_inv in Hrun as (w7 & status & _ & Hrun).
  apply bind_inv in Hrun as (w8 & published & Hpub & Hrun).
  apply try_or_return_inv in Hpub as [(u' & -> & _) | (e & -> & _)];
    apply ret_inv in Hrun as [<- _]; response_shape.
Qed.

Lemma get_well_formed env event w w' response :
  get_incident.lambda_handler env event w = (w', Ok response) → well_formed response.
Proof.
  unfold get_incident.lambda_handler.
  destruct (utils.is_options_request event).
  { intros [<- _]%ret_inv. by split_and!. }
  destruct (method_in event ["GET"]); cbn [negb].
  2:{ intros [<- _]%ret_inv. response_shape. }
  destruct (default ∅ _ !! "id") as [[|c s]|].
  1,3: intros [<- _]%ret_inv; response_shape.
  intros (w1 & fetched & Hget & Hrun)%bind_inv.
  apply try_or_return_inv in Hget as [(item & -> & _) | (e & -> & _)].
  2:{ apply ret_inv in Hrun as [<- _]. response_shape. }
  destruct item as [item|].
  - destruct (bool_decide (size item = 0%nat));
      apply ret_inv in Hrun as [<- _]; response_shape.
  - apply ret_inv in Hrun as [<- _]. response_shape.
Qed.

Lemma list_well_formed fuel env event w w' response :
  list_incidents.lambda_handler fuel env event w = (w', Ok response) →
  well_formed response.
Proof.
  unfold list_incidents.lambda_handler.
  destruct (utils.is_options_request event).
  { intros [<- _]%ret_inv. by split_and!. }
  destruct (method_in event ["GET"]); cbn [negb].
  2:{ intros [<- _]%ret_inv. response_shape. }
  intros (w1 & scanned & Hscan & Hrun)%bind_inv.
  apply try_or_return_inv in Hscan as [(records & -> & _) | (e & -> & _)];
    apply ret_inv in Hrun as [<- _]; response_shape.
Qed.

Lemma update_well_formed `{PyLib} env event w w' response :
  update_incident.lambda_handler env event w = (w', Ok response) → well_formed response.
Proof.
  unfold update_incident.lambda_handler.
  destruct (utils.is_options_request event).
  { intros [<- _]%ret_inv. by split_and!. }
  destruct (method_in event ["PATCH"; "PUT"]); cbn [negb].
  2:{ intros [<- _]%ret_inv. response_shape. }
  destruct (default ∅ _ !! "id") as [[|c s]|].
  1,3: intros [<- _]%ret_inv; response_shape.
  intros (w1 & parsed & Hparse & Hrun)%bind_inv.
  apply try_or_return_inv in Hparse as [(payload & -> & _) | (e & -> & _)].
  2:{ apply ret_inv in Hrun as [<- _]. response_shape. }
  apply bind_inv in Hrun as (w2 & [is_valid error_body] & [Hv ->]%lift_inv & Hrun).
  destruct is_valid; cbn [negb] in Hrun.
  2:{ apply ret_inv in Hrun as [<- _].
      destruct (update_validation_error _ _ Hv) as [message ->]. response_shape. }
  apply bind_inv in Hrun as (w3 & new_status & _ & Hrun).
  apply bind_inv in Hrun as (w4 & updated & Hupd & Hrun).
  apply try_or_return_inv in Hupd as [(record & -> & _) | (e & -> & _)];
    apply ret_inv in Hrun as [<- _].
  - response_shape.
  - destruct (bool_decide _); response_shape.
Qed.

(** C9.  Every response of the five handlers carries the fixed header
    set (Content-Type application/json, Access-Control-Allow-Origin *,
    Access-Control-Allow-Methods OPTIONS,GET,POST,PATCH,PUT,DELETE,
    Access-Control-Allow-Headers Content-Type,Authorization) and a JSON
    object as body; the body of an error response has [error] and
    [message], and the body of a 500 response has [detail] as well. *)
Theorem every_response_is_well_formed `{PyLib} h env event w w' response :
  invoke h env event w = (w', Ok response) →
  headers response = cors_headers
  ∧ ((400 ≤ statusCode response)%Z →
     is_Some (body response !! "error") ∧ is_Some (body response !! "message"))
  ∧ (statusCode response = 500%Z → is_Some (body response !! "detail")).
Proof.
  intros Hrun. change (well_formed response). destruct h; simpl in Hrun.
  - by eapply create_well_formed.
  - by eapply get_well_formed.
  - by eapply list_well_formed.
  - by eapply update_well_formed.
  - apply ret_inv in Hrun as [<- _]. by split_and!.
Qed.

(** ** What the stored record is made of *)





(* ================================================================== *)
(** * The handlers at work *)
(* ================================================================== *)

Example strip_blanks : strip "  Disk full " = "Disk full".
Proof. reflexivity. Qed.

Example the_id_is_the_uuid : str_uuid Scenario.the_uuid = Scenario.the_id.
Proof. vm_compute; reflexivity. Qed.

Example missing_fields_are_named :
  create_incident._validate_payload (JObject {[ "title" := JString "Disk full" ]})
  = Ok (false, Some (create_incident.validation_error
                       "Missing fields: description, severity, reported_by")).
Proof. vm_compute; reflexivity. Qed.

Example unknown_severity_is_refused :
  create_incident._validate_payload
    (JObject (<["severity" := JString "urgent"]> Scenario.plain_payload))
  = Ok (false, Some (create_incident.validation_error
                       "severity must be one of: critical, high, low, medium")).
Proof. vm_compute; reflexivity. Qed.

Example blank_title_is_refused :
  create_incident._validate_payload
    (JObject (<["title" := JString "   "]> Scenario.plain_payload))
  = Ok (false, Some (create_incident.validation_error "title must be a non-empty string")).
Proof. vm_compute; reflexivity. Qed.

(** A payload that is JSON text naming the four fields gets past the
    membership test and fails at [payload.get]. *)
Example text_payload_raises :
  create_incident._validate_payload (JString "title description severity reported_by")
  = Raised (AttributeError "'str' object has no attribute 'get'").
Proof. vm_compute; reflexivity. Qed.

Example null_payload_raises :
  update_incident._validate_payload JNull
  = Raised (TypeError "argument of type 'NoneType' is not iterable").
Proof. vm_compute; reflexivity. Qed.

Example archived_is_refused :
  update_incident._validate_payload (JObject Scenario.archive_payload)
  = Ok (false, Some (update_incident.validation_error
                       "status must be one of: closed, in_progress, open, resolved")).
Proof. vm_compute; reflexivity. Qed.

(** The keys the client has no say in do not reach the item. *)
Example forged_keys_are_dropped :
  create_incident.build_item (JObject Scenario.create_payload) Scenario.the_id "now"
  = create_incident.build_item (JObject Scenario.plain_payload) Scenario.the_id "now".
Proof. vm_compute; reflexivity. Qed.

(** A scan of two records in pages of one takes two requests. *)
Example two_pages :
  (dynamodb.scan_incidents 3 Scenario.at_noon Scenario.busy_world).2
  = Ok (Table.scan_order Scenario.busy_world)
  ∧ length (requests (dynamodb.scan_incidents 3 Scenario.at_noon Scenario.busy_world).1)
    = 2%nat.
Proof. split; vm_compute; reflexivity. Qed.

(** A service that never gets past the first item keeps the loop going. *)
Example stuck_scan :
  (dynamodb.scan_incidents 7
     (mkEnv 0 "now" (λ _, None) (λ _, 0%nat) None) Scenario.busy_world).2 = TimedOut.
Proof. vm_compute; reflexivity. Qed.

(** Without the name of the table in the environment no request is made
    to the table: the adapter raises, and so does the handler. *)
Example no_table_name :
  (get_incident.lambda_handler Scenario.at_noon (get_event Scenario.the_id)
     (mkWorld ∅ ∅ [])).2
  = Raised (RuntimeError "Missing required environment variable: INCIDENTS_TABLE_NAME").
Proof. vm_compute; reflexivity. Qed.

(* ================================================================== *)
(** * The properties at the scenario *)
(* ================================================================== *)







Lemma rejections_at_scenario :
  (∃ response,
     invoke (H:=Scenario.lib) Update Scenario.at_noon
       (Scenario.patch Scenario.the_id Scenario.archive_text) Scenario.busy_world =
       (Scenario.busy_world, Ok response)
     ∧ statusCode response = 400%Z
     ∧ body response !! "error" = Some (JString "ValidationError"))
  ∧ (∃ response,
       invoke (H:=Scenario.lib) (List 3) Scenario.at_noon (Scenario.with_method "DELETE")
         Scenario.busy_world = (Scenario.busy_world, Ok response)
       ∧ statusCode response = 405%Z
       ∧ body response !! "error" = Some (JString "MethodNotAllowed")).
Proof.
  split.
  - apply (proj1 (rejected_before_any_store_access (H:=Scenario.lib) Update
                    Scenario.at_noon
                    (Scenario.patch Scenario.the_id Scenario.archive_text)
                    Scenario.busy_world)).
    apply (invalid_update_payload _ Scenario.the_id (JObject Scenario.archive_payload)
             (Some (update_incident.validation_error
                      "status must be one of: closed, in_progress, open, resolved"))).
    + split_and!; [vm_compute; reflexivity | vm_compute; reflexivity | discriminate
                  | vm_compute; reflexivity].
    + vm_compute; reflexivity.
  - apply (proj1 (rejected_before_any_store_access (H:=Scenario.lib) (List 3)
                    Scenario.at_noon (Scenario.with_method "DELETE")
                    Scenario.busy_world)).
    apply wrong_method; [discriminate | vm_compute; reflexivity | vm_compute; reflexivity].
Defined.

Lemma options_at_scenario :
  invoke (H:=Scenario.lib) Create Scenario.throttled (Scenario.with_method "OPTIONS")
    Scenario.busy_world =
    (Scenario.busy_world,
     Ok {| statusCode := 204; headers := cors_headers; body := ∅;
           isBase64Encoded := false |}).
Proof.
  apply (options_is_answered_204 (H:=Scenario.lib) Create); [discriminate|reflexivity].
Defined.

Lemma response_shape_at_scenario :
  let response :=
    utils.build_response 404
      (Some {[ "error" := JString "NotFound";
               "message" := JString ("Incident '" +:+ "no-such-id" +:+ "' not found") ]}) in
  headers response = cors_headers
  ∧ ((400 ≤ statusCode response)%Z →
     is_Some (body response !! "error") ∧ is_Some (body response !! "message"))
  ∧ (statusCode response = 500%Z → is_Some (body response !! "detail")).
Proof.
  apply (every_response_is_well_formed (H:=Scenario.lib) Get Scenario.later
           (get_event "no-such-id") Scenario.busy_world
           (logged Scenario.busy_world (GetItem "incidents" "no-such-id"))).
  vm_compute; reflexivity.
Defined.


(* ================================================================== *)
(** * Further properties of the handlers *)
(* ================================================================== *)

(** ** Parsing and validation *)


Lemma not_a_nonempty_string_ok o f s :
  o !! f = Some (JString s) → strip s ≠ "" →
  create_incident.not_a_nonempty_string (JObject o) f = Ok false.
Proof.
  intros Hf Hs. unfold create_incident.not_a_nonempty_string. simpl. rewrite Hf. simpl.
  destruct (strip s); [done|reflexivity].
Qed.

Lemma missing_fields_object o fields :
  create_incident.missing_fields fields (JObject o)
  = Ok (filter (λ f, o !! f = None) fields).
Proof.
  induction fields as [|f fields IH]; [done|].
  cbn [create_incident.missing_fields]. rewrite IH. simpl.
  rewrite filter_cons. destruct (o !! f) as [v|] eqn:Hf.
  - rewrite bool_decide_eq_true_2 by eauto. by rewrite decide_False.
  - rewrite bool_decide_eq_false_2 by apply is_Some_None. by rewrite decide_True.
Qed.

Lemma create_validate_of_valid o title description reported_by severity :
  o !! "title" = Some (JString title) → strip title ≠ "" →
  o !! "description" = Some (JString description) → strip description ≠ "" →
  o !! "reported_by" = Some (JString reported_by) → strip reported_by ≠ "" →
  o !! "severity" = Some (JString severity) →
  severity ∈ create_incident.allowed_severity →
  (o !! "tags" = None ∨ ∃ l, o !! "tags" = Some (JArray l)) →
  create_incident._validate_payload (JObject o) = Ok (true, None).
Proof.
  intros Ht Ht' Hd Hd' Hr Hr' Hs Hal Htags.
  unfold create_incident._validate_payload.
  rewrite missing_fields_object. cbn [pure_bind].
  replace (filter _ create_incident.required_fields) with (@nil string).
  2:{ unfold create_incident.required_fields.
      rewrite !filter_cons, filter_nil, Ht, Hd, Hs, Hr.
      by rewrite !decide_False. }
  rewrite (not_a_nonempty_string_ok o "title" title Ht Ht'). cbn [pure_bind].
  rewrite (not_a_nonempty_string_ok o "description" description Hd Hd'). cbn [pure_bind].
  rewrite (not_a_nonempty_string_ok o "reported_by" reported_by Hr Hr'). cbn [pure_bind].
  unfold py_get. rewrite Hs. cbn [default from_option id pure_bind py_in_set].
  rewrite bool_decide_eq_true_2 by done. cbn [negb pure_bind py_in].
  destruct Htags as [Hno | [l Hl]].
  - rewrite Hno. rewrite bool_decide_eq_false_2 by apply is_Some_None. done.
  - rewrite Hl. rewrite bool_decide_eq_true_2 by eauto. simpl. by rewrite Hl.
Qed.

(** X2.  The create validation accepts a payload exactly when it is a
    JSON object whose title, description and reported_by are strings that
    are not blank, whose severity is one of the four strings low, medium,
    high, critical, and whose tags, if there, are a list. *)
Theorem create_payload_accepted_iff payload :
  create_incident._validate_payload payload = Ok (true, None) ↔
  ∃ o title description reported_by severity,
    payload = JObject o
    ∧ o !! "title" = Some (JString title) ∧ strip title ≠ ""
    ∧ o !! "description" = Some (JString description) ∧ strip description ≠ ""
    ∧ o !! "reported_by" = Some (JString reported_by) ∧ strip reported_by ≠ ""
    ∧ o !! "severity" = Some (JString severity)
    ∧ severity ∈ create_incident.allowed_severity
    ∧ (o !! "tags" = None ∨ ∃ l, o !! "tags" = Some (JArray l)).
Proof.
  split; [apply validate_create_inv|].
  intros (o & title & description & reported_by & severity & -> & Ht & Ht' & Hd & Hd'
          & Hr & Hr' & Hs & Hal & Htags).
  by eapply create_validate_of_valid.
Qed.

(** X3.  When a JSON object lacks some of title, description, severity
    and reported_by, the create validation refuses it with the kind
    ValidationError and a message that lists exactly the absent ones, in
    that order, whatever else the object holds.  A key that is there with
    the value null is not counted as absent. *)
Theorem missing_fields_are_listed o :
  (∃ f, f ∈ create_incident.required_fields ∧ o !! f = None) →
  create_incident._validate_payload (JObject o)
  = Ok (false,
        Some {[ "error" := JString "ValidationError";
                "message" := JString
                  ("Missing fields: "
                   +:+ join ", " (filter (λ f, o !! f = None)
                                    create_incident.required_fields)) ]}).
Proof.
  intros (f & Hin & Hf).
  unfold create_incident._validate_payload.
  rewrite missing_fields_object. cbn [pure_bind].
  destruct (filter _ create_incident.required_fields) as [|f' rest] eqn:Hfilter.
  - exfalso. assert (Hel : f ∈ filter (λ f, o !! f = None) create_incident.required_fields).
    { by apply list_elem_of_filter. }
    rewrite Hfilter in Hel. by apply elem_of_nil in Hel.
  - reflexivity.
Qed.

(** X4.  The update validation accepts a payload exactly when it is a
    JSON object whose status is one of the four strings open,
    in_progress, resolved, closed.  An object without status is refused
    with "status is required"; a status that is null, a boolean, a number
    or any other string is refused with the list of the four in
    alphabetical order. *)
Theorem update_payload_accepted_iff :
  (∀ payload,
     update_incident._validate_payload payload = Ok (true, None) ↔
     ∃ o status,
       payload = JObject o ∧ o !! "status" = Some (JString status)
       ∧ status ∈ update_incident.allowed_status)
  ∧ (∀ o,
       o !! "status" = None →
       update_incident._validate_payload (JObject o)
       = Ok (false, Some {[ "error" := JString "ValidationError";
                            "message" := JString "status is required" ]}))
  ∧ (∀ o v,
       o !! "status" = Some v →
       isinstance_list v = false → (∀ o', v ≠ JObject o') →
       (∀ status, v = JString status → status ∉ update_incident.allowed_status) →
       update_incident._validate_payload (JObject o)
       = Ok (false, Some {[ "error" := JString "ValidationError";
                            "message" := JString
                              "status must be one of: closed, in_progress, open, resolved" ]})).
Proof.
  split_and!.
  - intros payload. split; [apply validate_update_inv|].
    intros (o & status & -> & Hs & Hal).
    unfold update_incident._validate_payload, py_in, py_get. cbn [pure_bind].
    rewrite Hs. rewrite bool_decide_eq_true_2 by eauto.
    cbn [negb pure_bind default from_option id py_in_set].
    by rewrite bool_decide_eq_true_2.
  - intros o Hs. unfold update_incident._validate_payload, py_in. cbn [pure_bind].
    rewrite Hs. by rewrite bool_decide_eq_false_2 by apply is_Some_None.
  - intros o v Hs Hl Ho Hstr.
    unfold update_incident._validate_payload, py_in, py_get. cbn [pure_bind].
    rewrite Hs. rewrite bool_decide_eq_true_2 by eauto.
    cbn [negb pure_bind default from_option id].
    destruct v as [| | | |status| |o']; cbn [py_in_set pure_bind]; try done.
    + rewrite bool_decide_eq_false_2 by (by apply Hstr). done.
    + by destruct (Ho o').
Qed.

Lemma create_validate_non_object payload :
  (∀ o, payload ≠ JObject o) →
  (∃ missing,
     create_incident._validate_payload payload
     = Ok (false, Some (create_incident.validation_error
                          ("Missing fields: " +:+ join ", " missing))))
  ∨ (∃ text, create_incident._validate_payload payload = Raised (TypeError text))
  ∨ (∃ text, create_incident._validate_payload payload = Raised (AttributeError text)).
Proof.
  intros Hno. unfold create_incident._validate_payload.
  destruct payload as [| | | |s|l|o]; try (right; left; eexists; reflexivity).
  - destruct (create_incident.missing_fields _ (JString s)) as [[|f rest]| |] eqn:Hm;
      try (simpl in Hm;
           repeat (match type of Hm with context [if ?b then _ else _] => destruct b end);
           discriminate).
    + right. right. eexists. reflexivity.
    + left. by exists (f :: rest).
  - destruct (create_incident.missing_fields _ (JArray l)) as [[|f rest]| |] eqn:Hm;
      try (simpl in Hm;
           repeat (match type of Hm with context [if ?b then _ else _] => destruct b end);
           discriminate).
    + right. right. eexists. reflexivity.
    + left. by exists (f :: rest).
  - by destruct (Hno o).
Qed.

Lemma update_validate_non_object payload :
  (∀ o, payload ≠ JObject o) →
  update_incident._validate_payload payload
  = Ok (false, Some (update_incident.validation_error "status is required"))
  ∨ (∃ text, update_incident._validate_payload payload = Raised (TypeError text))
  ∨ (∃ text, update_incident._validate_payload payload = Raised (AttributeError text)).
Proof.
  intros Hno. unfold update_incident._validate_payload.
  destruct payload as [| | | |s|l|o]; try (right; left; eexists; reflexivity).
  - simpl. destruct (str_contains "status" s); simpl; [right; right; eauto|by left].
  - simpl. destruct (existsb _ l); simpl; [right; right; eauto|by left].
  - by destruct (Hno o).
Qed.

(** X5.  A create or update request whose body parses to JSON that is not
    an object never reaches the table.  The handler answers 400
    ValidationError (fields reported missing) or raises [TypeError] or
    [AttributeError]; in both cases the world is as it was.  For null, a
    boolean or a number it always raises [TypeError]. *)
Theorem non_object_body_never_reaches_the_table `{PyLib} env w payload :
  (∀ o, payload ≠ JObject o) →
  (∀ event,
     create_request event payload →
     (∃ response,
        create_incident.lambda_handler env event w = (w, Ok response)
        ∧ statusCode response = 400%Z
        ∧ body response !! "error" = Some (JString "ValidationError"))
     ∨ (∃ e,
          create_incident.lambda_handler env event w = (w, Raised e)
          ∧ ((∃ text, e = TypeError text) ∨ (∃ text, e = AttributeError text))))
  ∧ (∀ event incident_id,
       update_request event incident_id payload →
       (∃ response,
          update_incident.lambda_handler env event w = (w, Ok response)
          ∧ statusCode response = 400%Z
          ∧ body response !! "error" = Some (JString "ValidationError"))
       ∨ (∃ e,
            update_incident.lambda_handler env event w = (w, Raised e)
            ∧ ((∃ text, e = TypeError text) ∨ (∃ text, e = AttributeError text))))
  ∧ (isinstance_str payload = false → isinstance_list payload = false →
     ∀ event,
       create_request event payload →
       create_incident.lambda_handler env event w
       = (w, Raised (TypeError ("argument of type '" +:+ type_name payload
                                +:+ "' is not iterable")))).
Proof.
  intros Hno. split_and!.
  - intros event [Hm Hp].
    assert (Hrun : create_incident.lambda_handler env event w
                   = (validation <- lift (create_incident._validate_payload payload) ;;
                      let '(is_valid, error_body) := validation in
                      if negb is_valid then ret (utils.build_response 400 error_body)
                      else ret (utils.build_response 400 error_body)) w
                     ∨ ∃ v, create_incident._validate_payload payload = Ok (true, v)).
    { destruct (create_incident._validate_payload payload) as [[[] v]| |] eqn:Hv;
        [right; eauto|left..];
        unfold create_incident.lambda_handler;
        rewrite (is_options_false _ _ Hm not_options_POST), Hm; cbn [negb];
        (step_with ltac:(apply try_or_return_Ok; unfold lift; rewrite Hp; reflexivity));
        unfold bind, lift; rewrite Hv; reflexivity. }
    destruct (create_validate_non_object payload Hno)
      as [[missing Hv] | [[text Hv] | [text Hv]]];
      (destruct Hrun as [Hrun | [v Hv']]; [|by rewrite Hv in Hv']);
      rewrite Hrun; unfold bind, lift; rewrite Hv.
    + left. eexists. split; [reflexivity|done].
    + right. eauto 10.
    + right. eauto 10.
  - intros event incident_id (Hm & Hid & Hne & Hp).
    assert (Hrun : update_incident.lambda_handler env event w
                   = (validation <- lift (update_incident._validate_payload payload) ;;
                      let '(is_valid, error_body) := validation in
                      if negb is_valid then ret (utils.build_response 400 error_body)
                      else ret (utils.build_response 400 error_body)) w
                     ∨ ∃ v, update_incident._validate_payload payload = Ok (true, v)).
    { destruct (update_incident._validate_payload payload) as [[[] v]| |] eqn:Hv;
        [right; eauto|left..];
        unfold update_incident.lambda_handler;
        rewrite (is_options_false _ _ Hm not_options_PATCH_PUT), Hm; cbn [negb];
        rewrite Hid; (destruct incident_id as [|c s]; [by contradict Hne|]);
        (step_with ltac:(apply try_or_return_Ok; unfold lift; rewrite Hp; reflexivity));
        unfold bind, lift; rewrite Hv; reflexivity. }
    destruct (update_validate_non_object payload Hno) as [Hv | [[text Hv] | [text Hv]]];
      (destruct Hrun as [Hrun | [v Hv']]; [|by rewrite Hv in Hv']);
      rewrite Hrun; unfold bind, lift; rewrite Hv.
    + left. eexists. split; [reflexivity|done].
    + right. eauto 10.
    + right. eauto 10.
  - intros Hs Hl event [Hm Hp].
    unfold create_incident.lambda_handler.
    rewrite (is_options_false _ _ Hm not_options_POST), Hm. cbn [negb].
    step_with ltac:(apply try_or_return_Ok; unfold lift; rewrite Hp; reflexivity).
    unfold bind, lift.
    destruct payload as [| | | |s|l|o]; try done. by destruct (Hno o).
Qed.

(** X6.  A severity (on create) or a status (on update) that is a JSON
    list or object is not refused with 400: the membership test raises
    [TypeError] (unhashable type), the handler raises with it and the
    world is as it was. *)
Theorem unhashable_value_raises `{PyLib} env w o v :
  (isinstance_list v = true ∨ ∃ o', v = JObject o') →
  (∀ event title description reported_by,
     create_request event (JObject o) →
     o !! "title" = Some (JString title) → strip title ≠ "" →
     o !! "description" = Some (JString description) → strip description ≠ "" →
     o !! "reported_by" = Some (JString reported_by) → strip reported_by ≠ "" →
     o !! "severity" = Some v →
     create_incident.lambda_handler env event w
     = (w, Raised (TypeError ("unhashable type: '" +:+ type_name v +:+ "'"))))
  ∧ (∀ event incident_id,
       update_request event incident_id (JObject o) →
       o !! "status" = Some v →
       update_incident.lambda_handler env event w
       = (w, Raised (TypeError ("unhashable type: '" +:+ type_name v +:+ "'")))).
Proof.
  intros Hv.
  assert (Hset : ∀ allowed,
            py_in_set v allowed
            = Raised (TypeError ("unhashable type: '" +:+ type_name v +:+ "'"))).
  { intros allowed. destruct Hv as [Hl | [o' ->]]; [by destruct v|done]. }
  split.
  - intros event title description reported_by [Hm Hp] Ht Ht' Hd Hd' Hr Hr' Hs.
    unfold create_incident.lambda_handler.
    rewrite (is_options_false _ _ Hm not_options_POST), Hm. cbn [negb].
    step_with ltac:(apply try_or_return_Ok; unfold lift; rewrite Hp; reflexivity).
    erewrite bind_Raised; [reflexivity|].
    unfold lift, create_incident._validate_payload.
    rewrite missing_fields_object. cbn [pure_bind].
    replace (filter _ create_incident.required_fields) with (@nil string).
    2:{ unfold create_incident.required_fields.
        rewrite !filter_cons, filter_nil, Ht, Hd, Hs, Hr.
        by rewrite !decide_False. }
    rewrite (not_a_nonempty_string_ok o "title" title Ht Ht'). cbn [pure_bind].
    rewrite (not_a_nonempty_string_ok o "description" description Hd Hd'). cbn [pure_bind].
    rewrite (not_a_nonempty_string_ok o "reported_by" reported_by Hr Hr'). cbn [pure_bind].
    unfold py_get. rewrite Hs. cbn [default from_option id pure_bind].
    by rewrite Hset.
  - intros event incident_id (Hm & Hid & Hne & Hp) Hs.
    unfold update_incident.lambda_handler.
    rewrite (is_options_false _ _ Hm not_options_PATCH_PUT), Hm. cbn [negb].
    rewrite Hid. destruct incident_id as [|c s]; [by contradict Hne|].
    step_with ltac:(apply try_or_return_Ok; unfold lift; rewrite Hp; reflexivity).
    erewrite bind_Raised; [reflexivity|].
    unfold lift, update_incident._validate_payload, py_in, py_get. cbn [pure_bind].
    rewrite Hs. rewrite bool_decide_eq_true_2 by eauto.
    cbn [negb pure_bind default from_option id].
    by rewrite Hset.
Qed.

(** ** What a run does to the world *)

Section keeps.
Context (R : World → World → Prop) `{!PreOrder R}.

Lemma keeps_ret {A} (a : A) : keeps R (ret a).
Proof. intros w w' r [= <- _]. reflexivity. Qed.

Lemma keeps_lift {A} (r : result A) : keeps R (lift r).
Proof. intros w w' r' [= <- _]. reflexivity. Qed.

Lemma keeps_bind {A B} (m : M A) (k : A → M B) :
  keeps R m → (∀ a, keeps R (k a)) → keeps R (bind m k).
Proof.
  intros Hm Hk w w' r. unfold bind.
  destruct (m w) as [w1 [a|e|]] eqn:E; specialize (Hm _ _ _ E).
  - intros Hrun. etransitivity; [exact Hm|]. by eapply Hk.
  - by intros [= <- _].
  - by intros [= <- _].
Qed.

Lemma keeps_try_or_return {A} (m : M A) handles on_exc :
  keeps R m → keeps R (try_or_return m handles on_exc).
Proof.
  intros Hm w w' r. unfold try_or_return, try_except, bind, ret.
  destruct (m w) as [w1 [a|e|]] eqn:E; specialize (Hm _ _ _ E).
  - by intros [= <- _].
  - destruct (handles e); by intros [= <- _].
  - by intros [= <- _].
Qed.

Lemma keeps_env_var_dynamodb name : keeps R (dynamodb._get_env_var name).
Proof.
  intros w w' r. unfold dynamodb._get_env_var.
  destruct (environ w !! name) as [[|c s]|]; intros [= <- _]; reflexivity.
Qed.

Lemma keeps_env_var_sns name : keeps R (sns._get_env_var name).
Proof.
  intros w w' r. unfold sns._get_env_var.
  destruct (environ w !! name) as [[|c s]|]; intros [= <- _]; reflexivity.
Qed.

End keeps.

Ltac keeps_steps :=
  repeat first
    [ apply keeps_ret
    | apply keeps_lift
    | apply keeps_env_var_dynamodb
    | apply keeps_env_var_sns
    | apply keeps_try_or_return
    | apply keeps_bind; [|intros ?]
    | match goal with
      | |- keeps _ (if ?b then _ else _) => destruct b
      | |- keeps _ (match ?x with _ => _ end) => destruct x
      end ].

#[global] Instance same_table_preorder : PreOrder same_table.
Proof.
  split.
  - by intros w.
  - intros w1 w2 w3 [? ?] [? ?]. split; congruence.
Qed.

#[global] Instance evolves_preorder : PreOrder evolves.
Proof.
  split.
  - intros w. split_and!; [done|done|]. intros incident_id record Hr. eauto.
  - intros w1 w2 w3 (He1 & Hp1 & Hr1) (He2 & Hp2 & Hr2). split_and!.
    + congruence.
    + by etransitivity.
    + intros incident_id record Hrec.
      destruct (Hr1 _ _ Hrec) as (record1 & Hrec1 & Hk1).
      destruct (Hr2 _ _ Hrec1) as (record2 & Hrec2 & Hk2).
      exists record2. split; [done|]. intros k ? ?. by rewrite Hk2, Hk1.
Qed.

Lemma same_table_evolves w w' :
  same_table w w' → requests w `prefix_of` requests w' → evolves w w'.
Proof.
  intros [He Hi] Hp. split_and!; [done|done|].
  intros incident_id record Hr. rewrite Hi. eauto.
Qed.

Lemma evolves_logged w r : evolves w (logged w r).
Proof. apply same_table_evolves; [done|]. by apply prefix_app_r. Qed.

Lemma keeps_send R `{!PreOrder R} env r :
  (∀ w, R w (logged w r)) → keeps R (Table.send env r).
Proof.
  intros Hlog w w' res. unfold Table.send.
  destruct (table_fault env _) as [[code text]|]; intros [= <- _]; apply Hlog.
Qed.

Lemma same_table_logged w r : same_table w (logged w r).
Proof. done. Qed.

(** The reads. *)
Lemma keeps_get_item R `{!PreOrder R} env name key :
  (∀ w r, R w (logged w r)) → keeps R (Table.get_item env name key).
Proof.
  intros Hlog. unfold Table.get_item. apply keeps_bind; [done|by apply keeps_send|].
  intros _ w w' r [= <- _]. reflexivity.
Qed.

Lemma keeps_scan R `{!PreOrder R} env name start :
  (∀ w r, R w (logged w r)) → keeps R (Table.scan env name start).
Proof.
  intros Hlog. unfold Table.scan. apply keeps_bind; [done|by apply keeps_send|].
  intros _ w w' r [= <- _]. reflexivity.
Qed.

Lemma keeps_scan_loop R `{!PreOrder R} env name fuel :
  (∀ w r, R w (logged w r)) →
  ∀ kwargs acc, keeps R (dynamodb.scan_loop fuel env name kwargs acc).
Proof.
  intros Hlog. induction fuel as [|fuel IH]; intros kwargs acc.
  - intros w w' r [= <- _]. reflexivity.
  - cbn [dynamodb.scan_loop]. apply keeps_bind; [done|by apply keeps_scan|].
    intros response. destruct (Table.LastEvaluatedKey response); [apply IH|by apply keeps_ret].
Qed.

(** The writes. *)
Lemma evolves_put_item env name item : keeps evolves (Table.put_item env name item).
Proof.
  unfold Table.put_item. apply keeps_bind; [apply _| |].
  { apply keeps_send; [apply _|]. intros w. apply evolves_logged. }
  intros _ w w' r.
  destruct (item !! "incident_id") as [[| | | |key| |]|]; try (intros [= <- _]; reflexivity).
  destruct (items w !! key) eqn:Hkey; intros [= <- _]; [reflexivity|].
  split_and!; [done|done|].
  intros incident_id record Hrec. exists record. split; [|done].
  simpl. rewrite lookup_insert_ne; [done|]. intros ->. by rewrite Hkey in Hrec.
Qed.

Lemma evolves_update_item env name key status updated_at :
  keeps evolves (Table.update_item env name key status updated_at).
Proof.
  unfold Table.update_item. apply keeps_bind; [apply _| |].
  { apply keeps_send; [apply _|]. intros w. apply evolves_logged. }
  intros _ w w' r.
  destruct (items w !! key) as [item|] eqn:Hkey; intros [= <- _]; [|reflexivity].
  split_and!; [done|done|].
  intros incident_id record Hrec. simpl.
  destruct (decide (incident_id = key)) as [->|Hne].
  - rewrite lookup_insert_eq. eexists. split; [done|].
    intros k Hk1 Hk2. rewrite Hkey in Hrec. injection Hrec as ->.
    by rewrite !lookup_insert_ne.
  - rewrite lookup_insert_ne by done. eauto.
Qed.

Lemma keeps_publish R `{!PreOrder R} env arn message :
  (∀ w r, R w (logged w r)) → keeps R (Topic.publish env arn message).
Proof.
  intros Hlog w w' r. unfold Topic.publish.
  destruct (publish_fault env); intros [= <- _]; apply Hlog.
Qed.

Ltac evolves_steps :=
  unfold dynamodb.put_incident_item, dynamodb.get_incident_item, dynamodb.scan_incidents,
    dynamodb.update_incident_status, dynamodb.get_incidents_table,
    sns.publish_incident_created_message;
  repeat first
    [ apply evolves_put_item
    | apply evolves_update_item
    | apply keeps_get_item; [apply _|intros; apply evolves_logged]
    | apply keeps_scan_loop; [apply _|intros; apply evolves_logged]
    | apply keeps_publish; [apply _|intros; apply evolves_logged]
    | apply keeps_ret
    | apply keeps_lift
    | apply keeps_env_var_dynamodb
    | apply keeps_env_var_sns
    | apply keeps_try_or_return
    | apply keeps_bind; [apply _| |intros ?]
    | match goal with
      | |- keeps _ (if ?b then _ else _) => destruct b
      | |- keeps _ (match ?x with _ => _ end) => destruct x
      end ].

(** X7.  Whatever the event, the environment and the outcome (a
    response, an exception or no answer), a handler leaves the process
    environment as it was, only adds requests at the end of the log,
    removes no record from the table, and changes a record that was there
    at most in [status] and [updated_at]; so [incident_id], [created_at]
    and the other fields of a stored record are never modified. *)
Theorem handlers_keep_records `{PyLib} h env event w w' r :
  invoke h env event w = (w', r) →
  environ w' = environ w
  ∧ requests w `prefix_of` requests w'
  ∧ ∀ incident_id record,
      items w !! incident_id = Some record →
      ∃ record',
        items w' !! incident_id = Some record'
        ∧ ∀ k, k ≠ "status" → k ≠ "updated_at" → record' !! k = record !! k.
Proof.
  intros Hrun. change (evolves w w'). revert w w' r Hrun.
  change (keeps evolves (invoke h env event)).
  destruct h; unfold invoke, create_incident.lambda_handler, get_incident.lambda_handler,
    list_incidents.lambda_handler, update_incident.lambda_handler;
    evolves_steps; apply _.
Qed.

(** ** Reading *)

(** X8.  The get handler only reads: whatever the event and however the
    run ends, the table and the process environment are as before, and
    the log of requests is either unchanged or longer by one read of the
    path id. *)
Theorem get_only_reads env event w w' r :
  get_incident.lambda_handler env event w = (w', r) →
  environ w' = environ w
  ∧ items w' = items w
  ∧ (requests w' = requests w
     ∨ ∃ name incident_id,
         path_id event = Some incident_id
         ∧ requests w' = (requests w ++ [GetItem name incident_id])%list).
Proof.
  unfold get_incident.lambda_handler, path_id.
  destruct (utils.is_options_request event); [by intros [= <- _]; eauto|].
  destruct (method_in event ["GET"]); cbn [negb]; [|by intros [= <- _]; eauto].
  destruct (default ∅ _ !! "id") as [[|c s]|]; try (by intros [= <- _]; eauto).
  unfold dynamodb.get_incident_item, dynamodb.get_incidents_table, dynamodb._get_env_var,
    Table.get_item, Table.send, try_or_return, try_except, bind, ret.
  destruct (environ w !! "INCIDENTS_TABLE_NAME") as [[|c' s']|];
    try (by intros [= <- _]; eauto).
  cbv beta iota.
  destruct (table_fault env (length (requests w))) as [[code text]|]; simpl.
  - intros [= <- _]. split_and!; [done|done|]. right. eauto.
  - destruct (items w !! String c s) as [item|].
    + destruct (bool_decide (size item = 0%nat)); intros [= <- _];
        (split_and!; [done|done|]); right; eauto.
    + intros [= <- _]. split_and!; [done|done|]. right. eauto.
Qed.


(** ** Listing *)

(** Every outcome of the loop: only scans are requested, the table is as
    before, and a result, when there is one, is everything from the
    start position on. *)
Lemma scan_loop_outcome env name fuel :
  ∀ kwargs acc w w' r,
    dynamodb.scan_loop fuel env name kwargs acc w = (w', r) →
    same_table w w'
    ∧ (∃ new, requests w' = (requests w ++ new)%list ∧ forallb is_Scan new = true)
    ∧ ∀ records, r = Ok records →
        records = (acc ++ drop (default 0%nat kwargs) (Table.scan_order w))%list.
Proof.
  induction fuel as [|fuel IH]; intros kwargs acc w w' r.
  { intros [= <- <-]. split_and!; [done| |done]. exists []. by rewrite app_nil_r. }
  cbn [dynamodb.scan_loop]. unfold bind at 1, Table.scan, bind, Table.send.
  destruct (table_fault env _) as [[code text]|].
  { intros [= <- <-]. split_and!; [done| |done]. by exists [Scan name kwargs]. }
  set (start := default 0%nat kwargs).
  change (Table.page env (logged w (Scan name kwargs)) start) with (Table.page env w start).
  destruct (Table.LastEvaluatedKey (Table.page env w start)) as [next|] eqn:Hk.
  - intros Hrun. apply IH in Hrun as ([He Hi] & (new & Hnew & Hscans) & Hres).
    split_and!.
    + done.
    + exists (Scan name kwargs :: new). split; [|done].
      rewrite Hnew. simpl. by rewrite <- (assoc_L (++)).
    + intros records Hr. rewrite (Hres records Hr).
      change (Table.scan_order (logged w _)) with (Table.scan_order w).
      cbn [default from_option id]. rewrite <- (assoc_L (++)). f_equal.
      unfold Table.page in Hk. simpl in Hk.
      destruct (Nat.ltb_spec
                  (start + length (take (scan_limit env start)
                                     (drop start (Table.scan_order w))))
                  (length (Table.scan_order w))) as [Hlt|]; [|discriminate].
      injection Hk as <-. unfold Table.page. simpl.
      rewrite length_take, length_drop in *.
      rewrite Nat.min_l by lia.
      rewrite <- drop_drop. by rewrite take_drop.
  - intros [= <- <-]. split_and!; [done| |].
    + by exists [Scan name kwargs].
    + intros records [= <-]. f_equal. exact (page_without_key env w start Hk).
Qed.

(** X10.  The list handler only reads, requests nothing but scans, and
    never returns a partial listing: whatever the page limits and the
    service errors, a 200 response holds every record of the table, in
    the table's scan order. *)
Theorem list_is_all_or_nothing fuel env event w w' r :
  list_incidents.lambda_handler fuel env event w = (w', r) →
  environ w' = environ w
  ∧ items w' = items w
  ∧ (∃ new, requests w' = (requests w ++ new)%list ∧ forallb is_Scan new = true)
  ∧ ∀ response,
      r = Ok response → statusCode response = 200%Z →
      body response = {[ "items" := JArray (JObject <$> Table.scan_order w) ]}.
Proof.
  assert (Hnone : ∀ w0 : World, ∃ new,
            requests w0 = (requests w0 ++ new)%list ∧ forallb is_Scan new = true).
  { intros w0. exists []. by rewrite app_nil_r. }
  unfold list_incidents.lambda_handler.
  destruct (utils.is_options_request event).
  { intros [= <- <-]. split_and!; try done. intros ? [= <-]. done. }
  destruct (method_in event ["GET"]); cbn [negb].
  2:{ intros [= <- <-]. split_and!; try done. intros ? [= <-]. done. }
  unfold dynamodb.scan_incidents, dynamodb.get_incidents_table, dynamodb._get_env_var,
    try_or_return, try_except, bind, ret.
  destruct (environ w !! "INCIDENTS_TABLE_NAME") as [[|c s]|];
    try (intros [= <- <-]; split_and!; done).
  destruct (dynamodb.scan_loop fuel env (String c s) None [] w) as [w1 r1] eqn:Hloop.
  apply scan_loop_outcome in Hloop as ([He Hi] & Hnew & Hres).
  destruct r1 as [records|e|].
  - intros [= <- <-]. split_and!; try done.
    intros response [= <-] _. simpl. by rewrite (Hres records eq_refl).
  - destruct (is_ClientError e); intros [= <- <-]; split_and!; try done.
    intros response [= <-]. done.
  - intros [= <- <-]. split_and!; done.
Qed.

(** ** What a handler lets through *)

Lemma pure_raises_Ok {A} P (a : A) : pure_raises_only P (Ok a).
Proof. by intros e. Qed.

Lemma pure_raises_Raised {A} (P : exn → Prop) e : P e → pure_raises_only (A:=A) P (Raised e).
Proof. by intros He e' [= <-]. Qed.

Lemma pure_raises_bind {A B} P (r : result A) (k : A → result B) :
  pure_raises_only P r → (∀ a, pure_raises_only P (k a)) →
  pure_raises_only P (pure_bind r k).
Proof.
  intros Hr Hk e. destruct r as [a|e'|]; simpl; [apply Hk| |done].
  intros [= <-]. by apply Hr.
Qed.

Ltac pure_raises_steps :=
  repeat first
    [ apply pure_raises_Ok
    | apply pure_raises_Raised; exact I
    | apply pure_raises_bind; [|intros ?]
    | match goal with
      | |- pure_raises_only _ (if ?b then _ else _) => destruct b
      | |- pure_raises_only _ (match ?x with _ => _ end) => destruct x
      end ].

Lemma py_in_raises x container : pure_raises_only is_lookup_error (py_in x container).
Proof. unfold py_in. pure_raises_steps. Qed.

Lemma py_get_raises container key : pure_raises_only is_lookup_error (py_get container key).
Proof. unfold py_get. pure_raises_steps. Qed.

Lemma py_getitem_raises container key :
  pure_raises_only is_lookup_error (py_getitem container key).
Proof. unfold py_getitem. pure_raises_steps. Qed.

Lemma py_strip_raises v : pure_raises_only is_lookup_error (py_strip v).
Proof. unfold py_strip. pure_raises_steps. Qed.

Lemma py_in_set_raises v allowed : pure_raises_only is_lookup_error (py_in_set v allowed).
Proof. unfold py_in_set. pure_raises_steps. Qed.

Ltac lookup_raises_steps :=
  repeat first
    [ apply py_in_raises | apply py_get_raises | apply py_getitem_raises
    | apply py_strip_raises | apply py_in_set_raises
    | apply pure_raises_Ok
    | apply pure_raises_bind; [|intros ?]
    | match goal with
      | |- pure_raises_only _ (if ?b then _ else _) => destruct b
      | |- pure_raises_only _ (match ?x with _ => _ end) => destruct x
      end ].

Lemma missing_fields_raises fields payload :
  pure_raises_only is_lookup_error (create_incident.missing_fields fields payload).
Proof.
  induction fields as [|f fields IH]; cbn [create_incident.missing_fields].
  - apply pure_raises_Ok.
  - apply pure_raises_bind; [apply py_in_raises|]. intros present.
    apply pure_raises_bind; [apply IH|]. intros missing. apply pure_raises_Ok.
Qed.

Lemma create_validate_raises payload :
  pure_raises_only is_lookup_error (create_incident._validate_payload payload).
Proof.
  unfold create_incident._validate_payload, create_incident.not_a_nonempty_string.
  apply pure_raises_bind; [apply missing_fields_raises|]. intros missing.
  lookup_raises_steps.
Qed.

Lemma update_validate_raises payload :
  pure_raises_only is_lookup_error (update_incident._validate_payload payload).
Proof. unfold update_incident._validate_payload. lookup_raises_steps. Qed.

Lemma build_item_raises payload incident_id created_at :
  pure_raises_only is_lookup_error
    (create_incident.build_item payload incident_id created_at).
Proof. unfold create_incident.build_item. lookup_raises_steps. Qed.

Lemma parse_json_body_raises `{PyLib} event :
  pure_raises_only (λ e, is_ValueError e = true ∨ is_lookup_error e)
    (utils.parse_json_body event).
Proof.
  unfold utils.parse_json_body.
  destruct event as [ev|]; [|intros e [= <-]; by right].
  destruct (Event.body ev) as [raw|]; [|intros e [= <-]; by left].
  destruct (Event.isBase64Encoded ev);
    [destruct (b64decode_utf8 raw) as [message|text]|]; simpl;
    try (intros e [= <-]; by left);
    match goal with |- context [json_loads ?t] => destruct (json_loads t) end;
    try done; intros e [= <-]; by left.
Qed.

Section raises.
Context (P : exn → Prop).

Lemma raises_ret {A} (a : A) : raises_only P (ret a).
Proof. by intros w w' e. Qed.

Lemma raises_lift {A} (r : result A) : pure_raises_only P r → raises_only P (lift r).
Proof. intros Hr w w' e [= _ ->]. by apply Hr. Qed.

Lemma raises_bind {A B} (m : M A) (k : A → M B) :
  raises_only P m → (∀ a, raises_only P (k a)) → raises_only P (bind m k).
Proof.
  intros Hm Hk w w' e. unfold bind.
  destruct (m w) as [w1 [a|e'|]] eqn:E; [apply Hk| |done].
  intros [= _ <-]. by eapply Hm.
Qed.

Lemma raises_try_or_return {A} (Q : exn → Prop) (m : M A) handles on_exc :
  raises_only Q m → (∀ e, Q e → handles e = false → P e) →
  raises_only P (try_or_return m handles on_exc).
Proof.
  intros Hm HQ w w' e. unfold try_or_return, try_except, bind, ret.
  destruct (m w) as [w1 [a|e'|]] eqn:E; [done| |done].
  destruct (handles e') eqn:He; [done|]. intros [= _ <-].
  apply HQ; [|done]. by eapply Hm.
Qed.

End raises.

(** The table operations raise a service error or, without the name of
    the table, [RuntimeError]. *)
Local Abbreviation is_store_error :=
  (λ e : exn, is_ClientError e = true ∨ ∃ text, e = RuntimeError text).

Lemma env_var_raises name : raises_only is_store_error (dynamodb._get_env_var name).
Proof.
  intros w w' e. unfold dynamodb._get_env_var.
  destruct (environ w !! name) as [[|c s]|]; intros [= _ <-]; right; eauto.
Qed.

Lemma send_raises env r : raises_only is_store_error (Table.send env r).
Proof.
  intros w w' e. unfold Table.send.
  destruct (table_fault env _) as [[code text]|]; [|done]. intros [= _ <-]. by left.
Qed.

Lemma put_incident_item_raises env item :
  raises_only is_store_error (dynamodb.put_incident_item env item).
Proof.
  unfold dynamodb.put_incident_item, dynamodb.get_incidents_table, Table.put_item.
  apply raises_bind; [apply env_var_raises|]. intros name.
  apply raises_bind; [apply send_raises|]. intros _ w w' e.
  destruct (item !! "incident_id") as [[| | | |key| |]|];
    try (intros [= _ <-]; by left).
  destruct (items w !! key); [|done]. intros [= _ <-]. by left.
Qed.

Lemma get_incident_item_raises env incident_id :
  raises_only is_store_error (dynamodb.get_incident_item env incident_id).
Proof.
  unfold dynamodb.get_incident_item, dynamodb.get_incidents_table, Table.get_item.
  apply raises_bind; [apply env_var_raises|]. intros name.
  apply raises_bind; [apply send_raises|]. by intros _ w w' e.
Qed.

Lemma update_incident_status_raises env incident_id status updated_at :
  raises_only is_store_error
    (dynamodb.update_incident_status env incident_id status updated_at).
Proof.
  unfold dynamodb.update_incident_status, dynamodb.get_incidents_table, Table.update_item.
  apply raises_bind; [apply env_var_raises|]. intros name.
  apply raises_bind; [apply send_raises|]. intros _ w w' e.
  destruct (items w !! incident_id); [done|]. intros [= _ <-]. by left.
Qed.

Lemma scan_loop_raises env name fuel :
  ∀ kwargs acc, raises_only is_store_error (dynamodb.scan_loop fuel env name kwargs acc).
Proof.
  induction fuel as [|fuel IH]; intros kwargs acc; [by intros w w' e|].
  cbn [dynamodb.scan_loop]. apply raises_bind.
  - unfold Table.scan. apply raises_bind; [apply send_raises|]. by intros _ w w' e.
  - intros response. destruct (Table.LastEvaluatedKey response); [apply IH|].
    apply raises_ret.
Qed.

Lemma scan_incidents_raises fuel env :
  raises_only is_store_error (dynamodb.scan_incidents fuel env).
Proof.
  unfold dynamodb.scan_incidents, dynamodb.get_incidents_table.
  apply raises_bind; [apply env_var_raises|]. intros name. apply scan_loop_raises.
Qed.

Lemma store_error_uncaught e :
  is_store_error e → is_ClientError e = false → is_uncaught_kind e.
Proof. intros [He | [text ->]] Hc; [congruence|done]. Qed.

Lemma lookup_error_uncaught e : is_lookup_error e → is_uncaught_kind e.
Proof. by destruct e. Qed.

Lemma pure_raises_weaken {A} (P Q : exn → Prop) (r : result A) :
  (∀ e, P e → Q e) → pure_raises_only P r → pure_raises_only Q r.
Proof. intros HPQ Hr e He. by apply HPQ, Hr. Qed.

Ltac handler_raises_steps :=
  repeat first
    [ apply raises_ret
    | apply raises_lift;
        first [ apply (pure_raises_weaken _ _ _ lookup_error_uncaught);
                first [ apply create_validate_raises | apply update_validate_raises
                      | apply build_item_raises | apply py_getitem_raises ] ]
    | eapply raises_try_or_return;
        [ first [ apply put_incident_item_raises | apply get_incident_item_raises
                | apply update_incident_status_raises | apply scan_incidents_raises ]
        | apply store_error_uncaught ]
    | eapply raises_try_or_return;
        [ apply raises_lift; apply parse_json_body_raises
        | intros e [He|He] Hv; [congruence|by apply lookup_error_uncaught] ]
    | eapply (raises_try_or_return _ (λ _, True));
        [ by intros ? ? ? | intros e _ Hv; discriminate Hv ]
    | apply raises_bind; [|intros ?]
    | match goal with
      | |- raises_only _ (if ?b then _ else _) => destruct b
      | |- raises_only _ (match ?x with _ => _ end) => destruct x
      end ].

(** X11.  When a handler raises instead of answering, the exception is a
    [TypeError], [AttributeError], [KeyError] or [RuntimeError]: a
    [ClientError] of the table or the topic, or a [ValueError] of the
    body parser, never leaves a handler. *)
Theorem no_service_error_escapes `{PyLib} h env event w w' e :
  invoke h env event w = (w', Raised e) →
  is_ClientError e = false ∧ is_ValueError e = false.
Proof.
  intros Hrun.
  assert (Hkind : is_uncaught_kind e); [|by destruct e].
  revert w w' e Hrun. change (raises_only is_uncaught_kind (invoke h env event)).
  destruct h; unfold invoke, create_incident.lambda_handler, get_incident.lambda_handler,
    list_incidents.lambda_handler, update_incident.lambda_handler;
    handler_raises_steps.
Qed.

(** ** Configuration *)

Lemma table_name_missing w :
  environ w !! "INCIDENTS_TABLE_NAME" = None
  ∨ environ w !! "INCIDENTS_TABLE_NAME" = Some "" →
  dynamodb.get_incidents_table w
  = (w, Raised (RuntimeError
                  "Missing required environment variable: INCIDENTS_TABLE_NAME")).
Proof.
  unfold dynamodb.get_incidents_table, dynamodb._get_env_var. by intros [-> | ->].
Qed.

(** X12.  When INCIDENTS_TABLE_NAME is unset or empty, a request that
    gets as far as the store step is not answered: get, list, update and
    create raise [RuntimeError] naming the variable, and no request is
    made to the table or the topic. *)
Theorem without_table_name_handlers_raise `{PyLib} env w :
  environ w !! "INCIDENTS_TABLE_NAME" = None
  ∨ environ w !! "INCIDENTS_TABLE_NAME" = Some "" →
  let failure : World * result Response :=
    (w, Raised (RuntimeError
                  "Missing required environment variable: INCIDENTS_TABLE_NAME")) in
  (∀ event incident_id,
     method_in event ["GET"] = true → path_id event = Some incident_id →
     incident_id ≠ "" →
     get_incident.lambda_handler env event w = failure)
  ∧ (∀ fuel event,
       method_in event ["GET"] = true →
       list_incidents.lambda_handler fuel env event w = failure)
  ∧ (∀ event incident_id payload,
       update_request event incident_id payload →
       update_incident._validate_payload payload = Ok (true, None) →
       update_incident.lambda_handler env event w = failure)
  ∧ (∀ event payload,
       create_request event payload →
       create_incident._validate_payload payload = Ok (true, None) →
       create_incident.lambda_handler env event w = failure).
Proof.
  intros Hno%table_name_missing failure. subst failure.
  assert (Hstore : ∀ {A B} (k : string → M A) (handler : exn → Response)
                     (rest : Response + A → M B),
            (x <- try_or_return (table <- dynamodb.get_incidents_table ;; k table)
                    is_ClientError handler ;; rest x) w
            = (w, Raised (RuntimeError
                            "Missing required environment variable: INCIDENTS_TABLE_NAME"))).
  { intros A B k handler rest. erewrite bind_Raised; [reflexivity|].
    apply try_or_return_escapes; [|done]. by erewrite bind_Raised. }
  split_and!.
  - intros event incident_id Hm Hid Hne.
    unfold get_incident.lambda_handler.
    rewrite (is_options_false _ _ Hm not_options_GET), Hm. cbn [negb].
    unfold path_id in Hid. rewrite Hid. destruct incident_id as [|c s]; [done|].
    apply Hstore.
  - intros fuel event Hm.
    unfold list_incidents.lambda_handler.
    rewrite (is_options_false _ _ Hm not_options_GET), Hm. cbn [negb].
    apply Hstore.
  - intros event incident_id payload Hreq Hv.
    destruct (validate_update_inv _ Hv) as (o & status & -> & Hs & _).
    destruct Hreq as (Hm & Hid & Hne & Hp).
    unfold update_incident.lambda_handler.
    rewrite (is_options_false _ _ Hm not_options_PATCH_PUT), Hm. cbn [negb].
    rewrite Hid. destruct incident_id as [|c s]; [done|].
    step_with ltac:(apply try_or_return_Ok; unfold lift; rewrite Hp; reflexivity).
    step_lift Hv. cbn [negb].
    step_with ltac:(unfold lift, py_getitem; rewrite Hs; reflexivity).
    apply Hstore.
  - intros event payload [Hm Hp] Hv.
    destruct (build_item_of_valid payload (str_uuid (uuid4 env)) (utcnow env) Hv)
      as (o & item & -> & Hitem & _).
    unfold create_incident.lambda_handler.
    rewrite (is_options_false _ _ Hm not_options_POST), Hm. cbn [negb].
    step_with ltac:(apply try_or_return_Ok; unfold lift; rewrite Hp; reflexivity).
    step_lift Hv. cbn [negb].
    step_lift Hitem.
    apply Hstore.
Qed.


(** ** Updating twice, and reading back *)





(** ** What create asks of the collaborators *)

Lemma bind_stops {A B} (m : M A) (k : A → M B) w w' r :
  bind m k w = (w', r) →
  (∃ w1 a, m w = (w1, Ok a) ∧ k a w1 = (w', r))
  ∨ (∃ r0, m w = (w', r0) ∧ ∀ a, r0 ≠ Ok a).
Proof.
  unfold bind. destruct (m w) as [w1 [a|e|]]; [eauto|intros [= <- _]; eauto..].
Qed.

Lemma lift_stays {A} (r : result A) : keeps eq (lift r).
Proof. by intros w w' r' [= <- _]. Qed.

Lemma try_lift_stays {A} (r : result A) handles on_exc :
  keeps eq (try_or_return (lift r) handles on_exc).
Proof. apply keeps_try_or_return, lift_stays. Qed.

Lemma build_item_own_fields payload incident_id created_at item :
  create_incident.build_item payload incident_id created_at = Ok item →
  item !! "incident_id" = Some (JString incident_id)
  ∧ item !! "created_at" = Some (JString created_at)
  ∧ item !! "status" = Some (JString "open").
Proof.
  unfold create_incident.build_item. intros H.
  repeat match type of H with
         | context [pure_bind ?r _] =>
             destruct r as [?| |]; cbn [pure_bind] in H; try discriminate
         | context [if ?b then _ else _] =>
             destruct b; cbn [pure_bind] in H; try discriminate
         end;
    injection H as <-; by simplify_map_eq.
Qed.

(** Every outcome of the conditional write of an item with a string id. *)
Lemma put_incident_item_outcome env item key w w1 r1 :
  item !! "incident_id" = Some (JString key) →
  dynamodb.put_incident_item env item w = (w1, r1) →
  (w1 = w ∧ ∀ a, r1 ≠ Ok a)
  ∨ (∃ name, w1 = logged w (PutItem name item) ∧ ∀ a, r1 ≠ Ok a)
  ∨ (∃ name,
       items w !! key = None
       ∧ w1 = with_items (logged w (PutItem name item)) (<[key := item]> (items w))
       ∧ r1 = Ok tt).
Proof.
  intros Hkey.
  unfold dynamodb.put_incident_item, dynamodb.get_incidents_table, dynamodb._get_env_var,
    Table.put_item, Table.send, bind.
  destruct (environ w !! "INCIDENTS_TABLE_NAME") as [[|c s]|];
    try (intros [= <- <-]; by left).
  destruct (table_fault env _) as [[code text]|].
  { intros [= <- <-]. right. left. eauto. }
  rewrite Hkey. simpl.
  destruct (items w !! key) eqn:Hk; intros [= <- <-]; right; [left|right]; eauto.
Qed.

(** Every outcome of the publish step. *)
Lemma publish_message_outcome env message w w1 r1 :
  sns.publish_incident_created_message env message w = (w1, r1) →
  w1 = w ∨ ∃ arn, w1 = logged w (Publish arn message).
Proof.
  unfold sns.publish_incident_created_message, sns._get_env_var, Topic.publish, bind.
  destruct (environ w !! "INCIDENTS_TOPIC_ARN") as [[|c s]|];
    try (intros [= <- _]; by left).
  destruct (publish_fault env); intros [= <- _]; right; eauto.
Qed.

(** X16.  Whatever the event and the outcome, the create handler makes
    no request at all, or one conditional write, or one conditional write
    followed by one publish.  It publishes only after the write has put
    the item in the table under a fresh id, and the message then carries
    the [incident_id], [severity], [title], [created_at] and [status] of
    the stored item and nothing else. *)
Theorem create_writes_then_publishes `{PyLib} env event w w' r :
  create_incident.lambda_handler env event w = (w', r) →
  (requests w' = requests w ∧ items w' = items w)
  ∨ (∃ name item,
       requests w' = (requests w ++ [PutItem name item])%list
       ∧ item !! "incident_id" = Some (JString (str_uuid (uuid4 env)))
       ∧ (items w' = items w
          ∨ (items w !! str_uuid (uuid4 env) = None
             ∧ items w' = <[str_uuid (uuid4 env) := item]> (items w))))
  ∨ (∃ name item arn message,
       requests w' = (requests w ++ [PutItem name item; Publish arn message])%list
       ∧ items w !! str_uuid (uuid4 env) = None
       ∧ items w' = <[str_uuid (uuid4 env) := item]> (items w)
       ∧ dom message = {[ "incident_id"; "severity"; "title"; "created_at"; "status" ]}
       ∧ ∀ k, k ∈ dom message → message !! k = item !! k).
Proof.
  unfold create_incident.lambda_handler.
  destruct (utils.is_options_request event); [intros [= <- _]; by left|].
  destruct (method_in event ["POST"]); cbn [negb]; [|intros [= <- _]; by left].
  intros [(w1 & parsed & Hparse & Hrun) | (r0 & Hstop & _)]%bind_stops.
  2:{ apply try_lift_stays in Hstop as ->. by left. }
  apply try_lift_stays in Hparse as <-.
  destruct parsed as [response|payload]; [injection Hrun as <- _; by left|].
  apply bind_stops in Hrun as [(w1 & [is_valid error_body] & Hv & Hrun) | (r0 & Hstop & _)].
  2:{ apply lift_stays in Hstop as ->. by left. }
  apply lift_stays in Hv as <-.
  destruct is_valid; cbn [negb] in Hrun; [|injection Hrun as <- _; by left].
  apply bind_stops in Hrun as [(w1 & item & Hitem & Hrun) | (r0 & Hstop & _)].
  2:{ apply lift_stays in Hstop as ->. by left. }
  pose proof (lift_stays _ _ _ _ Hitem) as <-.
  apply lift_inv in Hitem as [Hitem _].
  apply build_item_own_fields in Hitem as (Hid & Hcreated & Hstatus).
  apply bind_stops in Hrun as [(w1 & stored & Hput & Hrun) | (r0 & Hstop & _)].
  2:{ unfold try_or_return, try_except, bind, ret in Hstop.
      destruct (dynamodb.put_incident_item env item w) as [w1 r1] eqn:Hput.
      assert (w1 = w').
      { destruct r1 as [?|e|]; [by injection Hstop| |by injection Hstop].
        destruct (is_ClientError e); by injection Hstop. }
      subst w1.
      destruct (put_incident_item_outcome _ _ _ _ _ _ Hid Hput)
        as [[-> _] | [(name & -> & _) | (name & Hfresh & -> & _)]];
        [by left|right; left..]; exists name, item; split_and!; eauto. }
  unfold try_or_return, try_except, bind, ret in Hput.
  destruct (dynamodb.put_incident_item env item w) as [w2 r2] eqn:Hput'.
  destruct (put_incident_item_outcome _ _ _ _ _ _ Hid Hput')
    as [[-> Hr2] | [(name & -> & Hr2) | (name & Hfresh & -> & ->)]].
  - destruct r2 as [[]|e|]; [by destruct (Hr2 ())| |done].
    destruct (is_ClientError e); [|done]. injection Hput as <- <-.
    injection Hrun as <- _. by left.
  - destruct r2 as [[]|e|]; [by destruct (Hr2 ())| |done].
    destruct (is_ClientError e); [|done]. injection Hput as <- <-.
    injection Hrun as <- _. right. left. exists name, item. split_and!; eauto.
  - injection Hput as <- <-.
    set (w2 := with_items (logged w (PutItem name item))
                 (<[str_uuid (uuid4 env) := item]> (items w))) in *.
    assert (Hstored : ∀ w3,
              w3 = w2 →
              (∃ name item,
                 requests w3 = (requests w ++ [PutItem name item])%list
                 ∧ item !! "incident_id" = Some (JString (str_uuid (uuid4 env)))
                 ∧ (items w3 = items w
                    ∨ (items w !! str_uuid (uuid4 env) = None
                       ∧ items w3 = <[str_uuid (uuid4 env) := item]> (items w))))).
    { intros w3 ->. exists name, item. split_and!; eauto. }
    apply bind_stops in Hrun as [(w3 & severity & Hsev & Hrun) | (r0 & Hstop & _)].
    2:{ apply lift_stays in Hstop. right. left. by apply Hstored. }
    pose proof (lift_stays _ _ _ _ Hsev) as <-.
    apply lift_inv in Hsev as [Hsev _].
    apply bind_stops in Hrun as [(w3 & title & Htitle & Hrun) | (r0 & Hstop & _)].
    2:{ apply lift_stays in Hstop. right. left. by apply Hstored. }
    pose proof (lift_stays _ _ _ _ Htitle) as <-.
    apply lift_inv in Htitle as [Htitle _].
    apply bind_stops in Hrun as [(w3 & status & Hst & Hrun) | (r0 & Hstop & _)].
    2:{ apply lift_stays in Hstop. right. left. by apply Hstored. }
    pose proof (lift_stays _ _ _ _ Hst) as <-.
    apply lift_inv in Hst as [Hst _].
    set (message := ({[ "incident_id" := JString (str_uuid (uuid4 env));
                        "severity" := severity;
                        "title" := title;
                        "created_at" := JString (utcnow env);
                        "status" := status ]} : dict)) in *.
    assert (Hfinal : ∀ w3 r3,
              sns.publish_incident_created_message env message w2 = (w3, r3) →
              (∃ name item,
                 requests w3 = (requests w ++ [PutItem name item])%list
                 ∧ item !! "incident_id" = Some (JString (str_uuid (uuid4 env)))
                 ∧ (items w3 = items w
                    ∨ (items w !! str_uuid (uuid4 env) = None
                       ∧ items w3 = <[str_uuid (uuid4 env) := item]> (items w))))
              ∨ (∃ name item arn message,
                   requests w3 = (requests w ++ [PutItem name item; Publish arn message])%list
                   ∧ items w !! str_uuid (uuid4 env) = None
                   ∧ items w3 = <[str_uuid (uuid4 env) := item]> (items w)
                   ∧ dom message
                     = {[ "incident_id"; "severity"; "title"; "created_at"; "status" ]}
                   ∧ ∀ k, k ∈ dom message → message !! k = item !! k)).
    { intros w3 r3 Hpub.
      destruct (publish_message_outcome _ _ _ _ _ Hpub) as [-> | [arn ->]].
      - left. by apply Hstored.
      - right. exists name, item, arn, message. split_and!.
        + simpl. by rewrite <- (assoc_L (++)).
        + done.
        + done.
        + unfold message. rewrite !dom_insert_L, dom_singleton_L. set_solver.
        + assert (Hdom : dom message
                         = {[ "incident_id"; "severity"; "title"; "created_at"; "status" ]}).
          { unfold message. rewrite !dom_insert_L, dom_singleton_L. set_solver. }
          intros k. rewrite Hdom. intros Hk.
          unfold py_getitem in Hsev, Htitle, Hst.
          destruct (item !! "severity") as [v1|] eqn:E1; [|done].
          destruct (item !! "title") as [v2|] eqn:E2; [|done].
          destruct (item !! "status") as [v3|] eqn:E3; [|done].
          injection Hsev as <-. injection Htitle as <-. injection Hst as <-.
          unfold message.
          repeat (apply elem_of_union in Hk as [Hk|Hk]);
            apply elem_of_singleton in Hk as ->; by simplify_map_eq. }
    apply bind_stops in Hrun as [(w3 & published & Hpub & Hrun) | (r0 & Hstop & _)].
    + unfold try_or_return, try_except, bind, ret in Hpub.
      destruct (sns.publish_incident_created_message env message w2) as [w4 r4] eqn:Hp.
      assert (w4 = w3) as ->.
      { destruct r4 as [?|e|]; [by injection Hpub|by injection Hpub|done]. }
      assert (w3 = w') as ->.
      { destruct published; by injection Hrun. }
      right. by eapply Hfinal.
    + unfold try_or_return, try_except, bind, ret in Hstop.
      destruct (sns.publish_incident_created_message env message w2) as [w4 r4] eqn:Hp.
      assert (w4 = w') as ->.
      { destruct r4 as [?|e|]; by injection Hstop. }
      right. by eapply Hfinal.
Qed.

(** ** The dashboard's calls *)

Lemma rstrip_cons c s :
  rstrip (String c s) = match rstrip s with
                        | EmptyString => if isspace c then EmptyString else String c EmptyString
                        | String d r => String c (String d r)
                        end.
Proof. reflexivity. Qed.

Lemma rstrip_idemp s : rstrip (rstrip s) = rstrip s.
Proof.
  induction s as [|c s IH]; [done|].
  rewrite rstrip_cons. destruct (rstrip s) as [|d r] eqn:Hr.
  - destruct (isspace c) eqn:Hc; [done|]. rewrite rstrip_cons. simpl. by rewrite Hc.
  - rewrite rstrip_cons, IH. done.
Qed.

Lemma rstrip_keeps_head c s : isspace c = false → ∃ r, rstrip (String c s) = String c r.
Proof.
  intros Hc. cbn [rstrip]. destruct (rstrip s); [rewrite Hc|]; eauto.
Qed.

Lemma lstrip_head s : lstrip s = "" ∨ ∃ c r, lstrip s = String c r ∧ isspace c = false.
Proof.
  induction s as [|c s IH]; [by left|].
  cbn [lstrip]. destruct (isspace c) eqn:Hc; [done|]. right; eauto.
Qed.

Lemma strip_idemp s : strip (strip s) = strip s.
Proof.
  unfold strip.
  destruct (lstrip_head s) as [-> | (c & r & -> & Hc)]; [done|].
  destruct (rstrip_keeps_head c r Hc) as [r' Hr]. rewrite Hr at 1.
  cbn [lstrip]. rewrite Hc, <- Hr. apply rstrip_idemp.
Qed.

Lemma append_cons c a b : String c a +:+ b = String c (a +:+ b).
Proof. reflexivity. Qed.

Lemma append_nil_l b : "" +:+ b = b.
Proof. reflexivity. Qed.

Lemma append_nil_r s : s +:+ "" = s.
Proof. induction s as [|c s IH]; [done|]. by rewrite append_cons, IH. Qed.

Lemma append_assoc a b c : (a +:+ b) +:+ c = a +:+ (b +:+ c).
Proof. induction a as [|x a IH]; [done|]. by rewrite !append_cons, IH. Qed.

(** What [upper] does to one character. *)
Lemma upper_char_facts c :
  upper_char c ≠ ""
  ∧ upper (upper_char c) = upper_char c
  ∧ (if isspace c then upper_char c = String c ""
     else lstrip (upper_char c) = upper_char c ∧ rstrip (upper_char c) = upper_char c).
Proof.
  destruct c as [[] [] [] [] [] [] [] []]; vm_compute;
    (split; [discriminate|split; [reflexivity|]]);
    first [reflexivity | split; reflexivity].
Qed.



Lemma upper_app a b : upper (a +:+ b) = upper a +:+ upper b.
Proof.
  induction a as [|c a IH]; [done|].
  rewrite append_cons. cbn [upper]. by rewrite IH, append_assoc.
Qed.

Lemma upper_idemp s : upper (upper s) = upper s.
Proof.
  induction s as [|c s IH]; [done|].
  cbn [upper]. rewrite upper_app, IH.
  by destruct (upper_char_facts c) as (_ & -> & _).
Qed.

Lemma upper_empty s : upper s = "" ↔ s = "".
Proof.
  split; [|by intros ->].
  destruct s as [|c s]; [done|]. cbn [upper].
  destruct (upper_char_facts c) as (Hne & _).
  destruct (upper_char c); [done|discriminate].
Qed.

Lemma lstrip_app a b :
  lstrip (a +:+ b) = match lstrip a with
                     | EmptyString => lstrip b
                     | String _ _ => lstrip a +:+ b
                     end.
Proof.
  induction a as [|c a IH]; [reflexivity|].
  rewrite append_cons. cbn [lstrip]. destruct (isspace c); [apply IH|done].
Qed.

Lemma rstrip_app a b :
  rstrip (a +:+ b) = match rstrip b with
                     | EmptyString => rstrip a
                     | String _ _ => a +:+ rstrip b
                     end.
Proof.
  induction a as [|c a IH]; [rewrite append_nil_l; by destruct (rstrip b)|].
  rewrite append_cons, rstrip_cons, IH.
  destruct (rstrip b) as [|d r]; [by rewrite rstrip_cons|].
  destruct a; by rewrite ?append_nil_l, ?append_cons.
Qed.

Lemma lstrip_upper s : lstrip (upper s) = upper (lstrip s).
Proof.
  induction s as [|c s IH]; [done|].
  cbn [upper lstrip]. rewrite lstrip_app.
  destruct (upper_char_facts c) as (Hne & _ & Hc).
  destruct (isspace c) eqn:E.
  - rewrite Hc. cbn [lstrip]. rewrite E. exact IH.
  - destruct Hc as [-> _]. cbn [upper]. by destruct (upper_char c).
Qed.

Lemma rstrip_upper s : rstrip (upper s) = upper (rstrip s).
Proof.
  induction s as [|c s IH]; [done|].
  cbn [upper]. rewrite rstrip_app, rstrip_cons, IH.
  destruct (upper_char_facts c) as (Hne & _ & Hc).
  destruct (rstrip s) as [|d r] eqn:Hr.
  - cbn [upper]. destruct (isspace c) eqn:E.
    + rewrite Hc, rstrip_cons. cbn [rstrip]. by rewrite E.
    + destruct Hc as [_ ->]. cbn [upper]. by rewrite append_nil_r.
  - change (upper (String c (String d r))) with (upper_char c +:+ upper (String d r)).
    destruct (upper (String d r)) eqn:Hu; [|reflexivity].
    apply (proj1 (upper_empty _)) in Hu. discriminate Hu.
Qed.

Lemma strip_upper s : strip (upper s) = upper (strip s).
Proof. unfold strip. by rewrite lstrip_upper, rstrip_upper. Qed.


Lemma lower_allowed severity :
  severity ∈ app.allowed_severities →
  lower severity = severity ∧ severity ∈ create_incident.allowed_severity.
Proof.
  intros Hin%list_elem_of_In. simpl in Hin.
  destruct Hin as [<-|[<-|[<-|[<-|[]]]]]; (split; [reflexivity|]);
    apply list_elem_of_In; simpl; tauto.
Qed.

(** X18.  [create_incident] of the dashboard refuses a severity that is
    not critical, high, medium or low in some mix of cases, without
    calling the API.  Otherwise it calls the API once with a payload of
    exactly the five fields, the severity in lower case, and turns an
    exception of the call into an error object; that payload passes the
    create validation of the API exactly when title, description and
    reported_by are not blank. *)
Theorem dashboard_create_payload title description severity tags reported_by :
  (lower severity ∉ app.allowed_severities →
   ∀ make_request,
     app.create_incident make_request title description severity tags reported_by
     = Ok (JObject {[ "error" := JString
                        "Invalid severity. Must be one of: critical, high, medium, low" ]}))
  ∧ (lower severity ∈ app.allowed_severities →
     ∃ data : dict,
       (∀ make_request,
          app.create_incident make_request title description severity tags reported_by
          = match make_request "POST" "/incidents" (Some data) with
            | Ok response => Ok response
            | Raised e =>
                Ok (JObject {[ "error" := JString ("Failed to create incident: "
                                                   +:+ str_exc e) ]})
            | TimedOut => TimedOut
            end)
       ∧ dom data = {[ "title"; "description"; "severity"; "reported_by"; "tags" ]}
       ∧ data !! "severity" = Some (JString (lower severity))
       ∧ (create_incident._validate_payload (JObject data) = Ok (true, None)
          ↔ strip title ≠ "" ∧ strip description ≠ "" ∧ strip reported_by ≠ "")).
Proof.
  split.
  - intros Hno make_request. unfold app.create_incident.
    by rewrite bool_decide_eq_false_2.
  - intros Hin. destruct (lower_allowed _ Hin) as [Hlow Hal].
    eexists. split_and!.
    + intros make_request. unfold app.create_incident.
      rewrite bool_decide_eq_true_2 by done. cbn [negb]. reflexivity.
    + rewrite !dom_insert_L, dom_singleton_L. set_solver.
    + rewrite Hlow. by simplify_map_eq.
    + split.
      * intros (o & t & d & r & s & [= <-] & Ht & Ht' & Hd & Hd' & Hr & Hr' & _)%validate_create_inv.
        simplify_map_eq. by rewrite !strip_idemp in *.
      * intros (Ht & Hd & Hr).
        eapply (create_validate_of_valid _ (strip title) (strip description)
                  (strip reported_by) (lower (lower severity)));
          try (by simplify_map_eq); try (by rewrite strip_idemp).
        -- by rewrite Hlow.
        -- right. eexists. by simplify_map_eq.
Qed.

(** X19.  [normalize_status] looks at a status through its upper-case
    form without the white space around it: the status in upper case,
    and the status without that white space, are normalised to the same
    text, and normalising a second time changes nothing.  This holds for
    a status that is not blank; one made of white space only is
    normalised to the empty text, which a second pass turns into
    UNKNOWN.  As for X17, the status is one with [upper_in_range]. *)
Theorem normalize_status_is_stable status :
  upper_in_range status = true →
  (strip status ≠ "" →
   app.normalize_status (upper status) = app.normalize_status status
   ∧ app.normalize_status (strip status) = app.normalize_status status
   ∧ app.normalize_status (app.normalize_status status) = app.normalize_status status)
  ∧ (status ≠ "" → strip status = "" →
     app.normalize_status status = ""
     ∧ app.normalize_status (app.normalize_status status) = "UNKNOWN").
Proof.
  intros _.
  assert (Hform : ∀ s, s ≠ "" →
            app.normalize_status s
            = let status := upper (strip s) in
              if bool_decide (status ∈ ["OPEN"]) then "OPEN"
              else if bool_decide (status ∈ ["IN_PROGRESS"; "IN PROGRESS"; "INPROGRESS"])
                   then "IN_PROGRESS"
              else if bool_decide (status ∈ ["RESOLVED"; "CLOSED"; "DONE"]) then "RESOLVED"
              else status).
  { intros [|c s] Hs; [done|reflexivity]. }
  split.
  - intros Hne.
    assert (Hs : status ≠ "") by (by intros ->).
    assert (Hu : upper status ≠ "").
    { intros Hu. by apply (proj1 (upper_empty _)) in Hu. }
    split_and!.
    + rewrite (Hform _ Hu), (Hform _ Hs). cbv zeta.
      by rewrite strip_upper, upper_idemp.
    + rewrite (Hform _ Hne), (Hform _ Hs). cbv zeta. by rewrite strip_idemp.
    + rewrite (Hform _ Hs). cbv zeta.
      assert (Ht : upper (strip status) ≠ "").
      { intros Ht. by apply (proj1 (upper_empty _)) in Ht. }
      set (t := upper (strip status)) in *.
      assert (Hfix : upper (strip t) = t).
      { unfold t. by rewrite strip_upper, upper_idemp, strip_idemp. }
      repeat case_bool_decide; try reflexivity.
      rewrite (Hform _ Ht). cbv zeta. rewrite Hfix.
      by repeat (rewrite bool_decide_eq_false_2 by done).
  - intros Hs Hblank.
    assert (Hres : app.normalize_status status = "").
    { rewrite (Hform _ Hs). cbv zeta. by rewrite Hblank. }
    by rewrite Hres.
Qed.

(** X20.  [normalize_status] never gives CLOSED, DONE, IN PROGRESS or
    INPROGRESS: they are folded into RESOLVED and IN_PROGRESS.  Each of
    the four statuses the update validation of the API accepts is shown
    as OPEN, IN_PROGRESS or RESOLVED, so that a closed incident is
    counted with the resolved ones. *)
Theorem normalize_status_folds_synonyms status :
  (app.normalize_status status ∉ ["CLOSED"; "DONE"; "IN PROGRESS"; "INPROGRESS"])
  ∧ (status ∈ update_incident.allowed_status →
     app.normalize_status status ∈ ["OPEN"; "IN_PROGRESS"; "RESOLVED"]).
Proof.
  split.
  - unfold app.normalize_status.
    destruct (str_truthy (Some status)); cbn [negb].
    2:{ intros Hin%list_elem_of_In. simpl in Hin. intuition discriminate. }
    repeat case_bool_decide;
      try (intros Hin%list_elem_of_In; simpl in Hin; intuition discriminate).
    rewrite !not_elem_of_cons in *. intuition congruence.
  - intros Hin%list_elem_of_In. simpl in Hin.
    destruct Hin as [<-|[<-|[<-|[<-|[]]]]]; vm_compute;
      apply list_elem_of_In; simpl; tauto.
Qed.

(* ------------------------------------------------------------------ *)
(** ** The further properties on the scenario *)


Lemma create_payload_accepted_at_scenario :
  ∃ o title description reported_by severity,
    JObject Scenario.create_payload = JObject o
    ∧ o !! "title" = Some (JString title) ∧ strip title ≠ ""
    ∧ o !! "description" = Some (JString description) ∧ strip description ≠ ""
    ∧ o !! "reported_by" = Some (JString reported_by) ∧ strip reported_by ≠ ""
    ∧ o !! "severity" = Some (JString severity)
    ∧ severity ∈ create_incident.allowed_severity
    ∧ (o !! "tags" = None ∨ ∃ l, o !! "tags" = Some (JArray l)).
Proof.
  apply (proj1 (create_payload_accepted_iff (JObject Scenario.create_payload))).
  vm_compute; reflexivity.
Defined.

Lemma missing_fields_at_cases :
  create_incident._validate_payload (JObject {[ "title" := JNull; "tags" := JInt 3 ]})
  = Ok (false,
        Some {[ "error" := JString "ValidationError";
                "message" := JString
                  ("Missing fields: "
                   +:+ join ", "
                         (filter (λ f, ({[ "title" := JNull; "tags" := JInt 3 ]} : dict) !! f = None)
                            create_incident.required_fields)) ]}).
Proof.
  apply (missing_fields_are_listed {[ "title" := JNull; "tags" := JInt 3 ]}).
  exists "severity". split; [|reflexivity].
  apply list_elem_of_In. simpl. tauto.
Defined.

Lemma update_payload_at_scenario :
  (∃ o status,
     JObject Scenario.resolve_payload = JObject o
     ∧ o !! "status" = Some (JString status)
     ∧ status ∈ update_incident.allowed_status)
  ∧ update_incident._validate_payload (JObject {[ "state" := JString "open" ]})
    = Ok (false, Some {[ "error" := JString "ValidationError";
                         "message" := JString "status is required" ]})
  ∧ update_incident._validate_payload (JObject Scenario.archive_payload)
    = Ok (false, Some {[ "error" := JString "ValidationError";
                         "message" := JString
                           "status must be one of: closed, in_progress, open, resolved" ]}).
Proof.
  destruct update_payload_accepted_iff as (Hiff & Hnone & Hother).
  split_and!.
  - apply (proj1 (Hiff (JObject Scenario.resolve_payload))). vm_compute; reflexivity.
  - apply Hnone. reflexivity.
  - apply (Hother Scenario.archive_payload (JString "archived")).
    + reflexivity.
    + reflexivity.
    + intros o'; discriminate.
    + intros status [= <-] Hin%list_elem_of_In. simpl in Hin. intuition discriminate.
Defined.

Lemma non_object_body_at_cases :
  create_incident.lambda_handler (H:=Cases.lib) Scenario.at_noon (Scenario.post "null")
    Scenario.empty_world
  = (Scenario.empty_world,
     Raised (TypeError ("argument of type '" +:+ type_name JNull +:+ "' is not iterable"))).
Proof.
  assert (Hno : ∀ o, JNull ≠ JObject o) by (intros o; discriminate).
  apply (proj2 (proj2 (non_object_body_never_reaches_the_table (H:=Cases.lib)
                         Scenario.at_noon Scenario.empty_world JNull Hno)));
    [reflexivity|reflexivity|].
  split; vm_compute; reflexivity.
Defined.

Lemma unhashable_value_at_cases :
  create_incident.lambda_handler (H:=Cases.lib) Scenario.at_noon
    (Scenario.post "list severity") Scenario.empty_world
  = (Scenario.empty_world,
     Raised (TypeError ("unhashable type: '" +:+ type_name (JArray [JString "high"]) +:+ "'"))).
Proof.
  assert (Hv : isinstance_list (JArray [JString "high"]) = true
               ∨ ∃ o', JArray [JString "high"] = JObject o') by (left; reflexivity).
  apply (proj1 (unhashable_value_raises (H:=Cases.lib) Scenario.at_noon Scenario.empty_world
                  Cases.list_severity_payload (JArray [JString "high"]) Hv)
           (Scenario.post "list severity") "  Disk full " "Data volume at 100%" " ana ").
  - split; vm_compute; reflexivity.
  - vm_compute; reflexivity.
  - vm_compute; discriminate.
  - vm_compute; reflexivity.
  - vm_compute; discriminate.
  - vm_compute; reflexivity.
  - vm_compute; discriminate.
  - vm_compute; reflexivity.
Defined.

Lemma get_only_reads_at_scenario :
  let run := get_incident.lambda_handler Scenario.at_noon (get_event Scenario.the_id)
               Scenario.busy_world in
  environ run.1 = environ Scenario.busy_world
  ∧ items run.1 = items Scenario.busy_world
  ∧ (requests run.1 = requests Scenario.busy_world
     ∨ ∃ name incident_id,
         path_id (get_event Scenario.the_id) = Some incident_id
         ∧ requests run.1
           = (requests Scenario.busy_world ++ [GetItem name incident_id])%list).
Proof.
  intros run.
  apply (get_only_reads Scenario.at_noon (get_event Scenario.the_id) Scenario.busy_world
           run.1 run.2).
  apply surjective_pairing.
Defined.


Lemma list_all_or_nothing_at_scenario :
  let run := list_incidents.lambda_handler 3 Scenario.at_noon (Scenario.with_method "GET")
               Scenario.busy_world in
  environ run.1 = environ Scenario.busy_world
  ∧ items run.1 = items Scenario.busy_world
  ∧ (∃ new, requests run.1 = (requests Scenario.busy_world ++ new)%list
            ∧ forallb is_Scan new = true)
  ∧ ∀ response,
      run.2 = Ok response → statusCode response = 200%Z →
      body response = {[ "items" := JArray (JObject <$> Table.scan_order Scenario.busy_world) ]}.
Proof.
  intros run.
  apply (list_is_all_or_nothing 3 Scenario.at_noon (Scenario.with_method "GET")
           Scenario.busy_world run.1 run.2).
  apply surjective_pairing.
Defined.

Lemma handlers_keep_records_at_scenario :
  let run := invoke (H:=Scenario.lib) Update Scenario.later
               (Scenario.patch Scenario.the_id Scenario.resolve_text) Scenario.busy_world in
  environ run.1 = environ Scenario.busy_world
  ∧ requests Scenario.busy_world `prefix_of` requests run.1
  ∧ ∀ incident_id record,
      items Scenario.busy_world !! incident_id = Some record →
      ∃ record',
        items run.1 !! incident_id = Some record'
        ∧ ∀ k, k ≠ "status" → k ≠ "updated_at" → record' !! k = record !! k.
Proof.
  intros run.
  apply (handlers_keep_records (H:=Scenario.lib) Update Scenario.later
           (Scenario.patch Scenario.the_id Scenario.resolve_text) Scenario.busy_world
           run.1 run.2).
  apply surjective_pairing.
Defined.

Lemma create_requests_at_scenario :
  let run := create_incident.lambda_handler (H:=Scenario.lib) Scenario.at_noon
               (Scenario.post Scenario.plain_text) Scenario.empty_world in
  (requests run.1 = requests Scenario.empty_world
   ∧ items run.1 = items Scenario.empty_world)
  ∨ (∃ name item,
       requests run.1 = (requests Scenario.empty_world ++ [PutItem name item])%list
       ∧ item !! "incident_id" = Some (JString (str_uuid (uuid4 Scenario.at_noon)))
       ∧ (items run.1 = items Scenario.empty_world
          ∨ (items Scenario.empty_world !! str_uuid (uuid4 Scenario.at_noon) = None
             ∧ items run.1
               = <[str_uuid (uuid4 Scenario.at_noon) := item]> (items Scenario.empty_world))))
  ∨ (∃ name item arn message,
       requests run.1
       = (requests Scenario.empty_world ++ [PutItem name item; Publish arn message])%list
       ∧ items Scenario.empty_world !! str_uuid (uuid4 Scenario.at_noon) = None
       ∧ items run.1
         = <[str_uuid (uuid4 Scenario.at_noon) := item]> (items Scenario.empty_world)
       ∧ dom message = {[ "incident_id"; "severity"; "title"; "created_at"; "status" ]}
       ∧ ∀ k, k ∈ dom message → message !! k = item !! k).
Proof.
  intros run.
  apply (create_writes_then_publishes (H:=Scenario.lib) Scenario.at_noon
           (Scenario.post Scenario.plain_text) Scenario.empty_world run.1 run.2).
  apply surjective_pairing.
Defined.


Lemma without_table_name_at_cases :
  let failure : World * result Response :=
    (Cases.bare_world,
     Raised (RuntimeError "Missing required environment variable: INCIDENTS_TABLE_NAME")) in
  get_incident.lambda_handler Scenario.at_noon (get_event Scenario.the_id) Cases.bare_world
  = failure
  ∧ list_incidents.lambda_handler 3 Scenario.at_noon (Scenario.with_method "GET")
      Cases.bare_world = failure
  ∧ update_incident.lambda_handler (H:=Scenario.lib) Scenario.at_noon
      (Scenario.patch Scenario.the_id Scenario.resolve_text) Cases.bare_world = failure
  ∧ create_incident.lambda_handler (H:=Scenario.lib) Scenario.at_noon
      (Scenario.post Scenario.plain_text) Cases.bare_world = failure.
Proof.
  intros failure.
  destruct (without_table_name_handlers_raise (H:=Scenario.lib) Scenario.at_noon
              Cases.bare_world (or_introl eq_refl)) as (Hget & Hlist & Hupdate & Hcreate).
  split_and!.
  - apply (Hget _ Scenario.the_id); [vm_compute; reflexivity..|discriminate].
  - apply Hlist. vm_compute; reflexivity.
  - apply (Hupdate _ Scenario.the_id (JObject Scenario.resolve_payload)).
    + split_and!; [vm_compute; reflexivity | vm_compute; reflexivity | discriminate
                  | vm_compute; reflexivity].
    + vm_compute; reflexivity.
  - apply (Hcreate _ (JObject Scenario.plain_payload)).
    + split; vm_compute; reflexivity.
    + vm_compute; reflexivity.
Defined.

Lemma no_service_error_at_cases :
  is_ClientError (TypeError "argument of type 'NoneType' is not iterable") = false
  ∧ is_ValueError (TypeError "argument of type 'NoneType' is not iterable") = false.
Proof.
  apply (no_service_error_escapes (H:=Cases.lib) Create Scenario.at_noon
           (Scenario.post "null") Scenario.empty_world Scenario.empty_world).
  vm_compute; reflexivity.
Defined.



Lemma dashboard_create_at_scenario :
  ∃ data : dict,
    (∀ make_request,
       app.create_incident make_request "  Disk full " "Data volume at 100%" "High"
         (Some ["storage "]) " ana "
       = match make_request "POST" "/incidents" (Some data) with
         | Ok response => Ok response
         | Raised e =>
             Ok (JObject {[ "error" := JString ("Failed to create incident: "
                                                +:+ str_exc e) ]})
         | TimedOut => TimedOut
         end)
    ∧ dom data = {[ "title"; "description"; "severity"; "reported_by"; "tags" ]}
    ∧ data !! "severity" = Some (JString (lower "High"))
    ∧ (create_incident._validate_payload (JObject data) = Ok (true, None)
       ↔ strip "  Disk full " ≠ "" ∧ strip "Data volume at 100%" ≠ "" ∧ strip " ana " ≠ "").
Proof.
  apply (proj2 (dashboard_create_payload "  Disk full " "Data volume at 100%" "High"
                  (Some ["storage "]) " ana ")).
  apply list_elem_of_In. vm_compute. tauto.
Defined.


Lemma normalize_status_at_cases :
  (app.normalize_status (upper " Resolved ") = app.normalize_status " Resolved "
   ∧ app.normalize_status (strip " Resolved ") = app.normalize_status " Resolved "
   ∧ app.normalize_status (app.normalize_status " Resolved ")
     = app.normalize_status " Resolved ")
  ∧ (app.normalize_status "  " = ""
     ∧ app.normalize_status (app.normalize_status "  ") = "UNKNOWN").
Proof.
  split.
  - apply (proj1 (normalize_status_is_stable " Resolved " eq_refl)).
    vm_compute; discriminate.
  - apply (proj2 (normalize_status_is_stable "  " eq_refl)); [discriminate|reflexivity].
Defined.

Lemma normalize_status_folds_at_cases :
  app.normalize_status "closed" ∈ ["OPEN"; "IN_PROGRESS"; "RESOLVED"].
Proof.
  apply (proj2 (normalize_status_folds_synonyms "closed")).
  apply list_elem_of_In. simpl. tauto.
Defined.
